(** * Session composer, route guard and token exchange endpoint

    A shallow embedding of [src/util/auth.js] (the authentication state hook
    and the [requireAuth] wrapper) and of the [auth-firebase-token] API
    handler, together with the properties that the specification states
    about them.

    JavaScript values are embedded as a small untyped universe; thrown
    exceptions and promise rejections are explicit; the React state cell,
    the Firebase session, the user collection and the sequence of calls made
    to the outside world (history replacements among them) are fields of an
    explicit world that every asynchronous operation threads through. *)

From Stdlib Require Import ZArith Ascii String.
From stdpp Require Import base option list strings gmap pretty.

Local Open Scope string_scope.

(** ** JavaScript values *)

(** Numbers are restricted to integers: no number is ever computed by the
    code below, they only travel inside user records. *)
#[warnings="-register-all"]
Inductive value : Type :=
| VUndef
| VNull
| VBool (b : bool)
| VNum (n : Z)
| VStr (s : string)
| VArr (items : list value)
| VObj (props : list (string * value)).

(** A plain object: its own properties, in insertion order (the order is
    carried along but no statement below observes it). Strings are byte
    strings. *)
Abbreviation object := (list (string * value)).

(** What a [throw] or a promise rejection carries. [TypeError] is the
    exception raised by the engine itself (member access on [undefined] or
    [null], call of something that is not a function); [CustomError] is the
    class imported from [./util]; [ServiceError] wraps whatever a vendor SDK
    rejects with. *)
Inductive exn : Type :=
| TypeError
| CustomError (code message : string)
| ServiceError (detail : value).

Inductive result (A : Type) : Type :=
| Ok (a : A)
| Throw (e : exn).
Arguments Ok {A} a.
Arguments Throw {A} e.

(** [Boolean(v)]: the test performed by [if (v)], [!v], [a && b], [a || b]. *)
Definition truthy (v : value) : bool :=
  match v with
  | VUndef | VNull => false
  | VBool b => b
  | VNum n => negb (n =? 0)%Z
  | VStr s => negb (s =? "")
  | VArr _ | VObj _ => true
  end.

(** [o[k]] on the own properties of a plain object. *)
Fixpoint get_prop (o : object) (k : string) : value :=
  match o with
  | [] => VUndef
  | (k', v) :: rest => if k' =? k then v else get_prop rest k
  end.

Fixpoint has_prop (o : object) (k : string) : bool :=
  match o with
  | [] => false
  | (k', _) :: rest => if k' =? k then true else has_prop rest k
  end.

(** [o[k] = v]: overwrite in place, or append a new property. *)
Fixpoint set_prop (o : object) (k : string) (v : value) : object :=
  match o with
  | [] => [(k, v)]
  | (k', v') :: rest =>
      if k' =? k then (k', v) :: rest else (k', v') :: set_prop rest k v
  end.

(** [v.k] for a property name [k] that no built-in prototype defines. Reading
    a member of [undefined] or [null] throws; primitives and arrays have no
    such property. (The one name used below that a prototype does define is
    [sub] on strings; the value read there is only ever used as the receiver
    of [.split], which a function does not have either, so the outcome is the
    same [TypeError].) *)
Definition get_member (v : value) (k : string) : result value :=
  match v with
  | VUndef | VNull => Throw TypeError
  | VObj o => Ok (get_prop o k)
  | _ => Ok VUndef
  end.

(** [s.split(sep)] for a one-character separator: never empty. *)
Fixpoint split_on (sep : ascii) (s : string) : list string :=
  match s with
  | EmptyString => [EmptyString]
  | String c rest =>
      if Ascii.eqb c sep then EmptyString :: split_on sep rest
      else match split_on sep rest with
           | [] => [String c EmptyString]
           | piece :: pieces => String c piece :: pieces
           end
  end.

(** [v.split("|")]: only a string has the method. *)
Definition call_split (v : value) (sep : ascii) : result value :=
  match v with
  | VStr s => Ok (VArr (VStr <$> split_on sep s))
  | _ => Throw TypeError
  end.

(** [v[i]] on an array or a string; out of range reads [undefined]. *)
Definition get_index (v : value) (i : nat) : result value :=
  match v with
  | VUndef | VNull => Throw TypeError
  | VArr items => Ok (default VUndef (items !! i))
  | VStr s =>
      Ok match String.get i s with
         | Some c => VStr (String c EmptyString)
         | None => VUndef
         end
  | _ => Ok VUndef
  end.

(** The own enumerable properties that [Object.assign] and object spread
    copy from a source: those of an object, the indexed elements of an array
    or of a string, nothing for the other primitives. *)
Fixpoint indexed {A} (mk : A -> value) (i : nat) (l : list A) : object :=
  match l with
  | [] => []
  | x :: rest => (pretty i, mk x) :: indexed mk (S i) rest
  end.

Definition own_props (v : value) : object :=
  match v with
  | VObj o => o
  | VArr items => indexed (fun item => item) 0 items
  | VStr s => indexed (fun c => VStr (String c EmptyString)) 0 (list_ascii_of_string s)
  | _ => []
  end.

(** [Object.assign(target, source)]. *)
Definition object_assign (target : object) (source : value) : object :=
  foldl (fun acc kv => set_prop acc kv.1 kv.2) target (own_props source).

(** [["active", "trialing"].includes(v)] and the like: [SameValueZero]
    against string literals. *)
Definition includes (literals : list string) (v : value) : bool :=
  match v with
  | VStr s => existsb (String.eqb s) literals
  | _ => false
  end.

(** [a === b] against a string literal, and against [null]. *)
Definition strict_eq_string (s : string) (v : value) : bool :=
  match v with
  | VStr s' => s =? s'
  | _ => false
  end.

Definition is_null (v : value) : bool :=
  match v with
  | VNull => true
  | _ => false
  end.

(** ** Rendering: a computation that may throw and may write to the console *)

Definition Render (A : Type) : Type := list value * result A.

Definition ret {A} (a : A) : Render A := ([], Ok a).
Definition lift {A} (r : result A) : Render A := ([], r).
Definition console_error (v : value) : Render unit := ([v], Ok tt).

Definition bind {A B} (m : Render A) (f : A -> Render B) : Render B :=
  match m with
  | (out, Ok a) => let (out', r) := f a in ((out ++ out')%list, r)
  | (out, Throw e) => (out, Throw e)
  end.

Declare Scope render_scope.
Delimit Scope render_scope with render.
Notation "'let!' x ':=' m 'in' k" := (bind m (fun x => k))
  (at level 10, x name, m at level 100, k at level 200) : render_scope.

Definition returned {A} (m : Render A) : result A := m.2.
Definition console {A} (m : Render A) : list value := m.1.

(** ** The provider table *)

Module Provider.
Record t : Type := { id : string; name : string }.
End Provider.

Definition allProviders : list Provider.t :=
  [ {| Provider.id := "auth0"; Provider.name := "password" |};
    {| Provider.id := "google-oauth2"; Provider.name := "google" |};
    {| Provider.id := "facebook"; Provider.name := "facebook" |};
    {| Provider.id := "twitter"; Provider.name := "twitter" |};
    {| Provider.id := "github"; Provider.name := "github" |} ].

(** [allProviders.find(pred)]: the first match, or [undefined]. *)
Definition find_provider (pred : Provider.t -> bool) : option Provider.t :=
  List.find pred allProviders.

(** [.name] and [.id] on what [find] returned: a [TypeError] on [undefined]. *)
Definition member_of_found {A} (proj : Provider.t -> A) (found : option Provider.t)
  : result A :=
  match found with
  | Some p => Ok (proj p)
  | None => Throw TypeError
  end.

(** ** The user-record query *)

(** What the [useUser] hook of [./db] hands back. *)
Record query : Type := { status : string; data : value; error : value }.

(** Whether to merge extra user data from database into [auth.user]. *)
Definition MERGE_DB_USER : bool := true.

Section Composer.

(** [getFriendlyPlanId] is imported from [./prices], which maps a Stripe
    price id to a plan name; it is kept abstract. *)
Variable getFriendlyPlanId : value -> value.

Local Open Scope render_scope.

(** Format final user object and merge extra data from database. The
    [switch] has no [default]: an unknown status leaves it and reaches the
    final [return finalUser], as does the end of the ["success"] case. *)
Definition usePrepareUser (user : value) (userDbQuery : query) : Render value :=
  if negb (truthy user) then ret user else
  let! uid := lift (get_member user "sub") in
  let! email := lift (get_member user "email") in
  let! emailVerified := lift (get_member user "email_verified") in
  let! name := lift (get_member user "name") in
  let! picture := lift (get_member user "picture") in
  let finalUser : object :=
    [ ("uid", uid); ("email", email); ("emailVerified", emailVerified);
      ("name", name); ("picture", picture) ] in
  let! sub := lift (get_member user "sub") in
  let! pieces := lift (call_split sub "|") in
  let! providerId := lift (get_index pieces 0) in
  let! providerName := lift (member_of_found Provider.name
    (find_provider (fun p => strict_eq_string (Provider.id p) providerId))) in
  let finalUser := set_prop finalUser "providers" (VArr [VStr providerName]) in
  if MERGE_DB_USER then
    if status userDbQuery =? "idle" then ret VNull
    else if status userDbQuery =? "loading" then ret VNull
    else if status userDbQuery =? "error" then
      let! _ := console_error (error userDbQuery) in
      ret VNull
    else if status userDbQuery =? "success" then
      if is_null (data userDbQuery) then ret VNull else
      let finalUser := object_assign finalUser (data userDbQuery) in
      let! stripePriceId := lift (get_member (data userDbQuery) "stripePriceId") in
      let! stripeSubscriptionStatus :=
        lift (get_member (data userDbQuery) "stripeSubscriptionStatus") in
      let finalUser :=
        if truthy stripePriceId
        then set_prop finalUser "planId" (getFriendlyPlanId stripePriceId)
        else finalUser in
      let finalUser :=
        set_prop finalUser "planIsActive"
          (VBool (includes ["active"; "trialing"] stripeSubscriptionStatus)) in
      ret (VObj finalUser)
    else ret (VObj finalUser)
  else ret (VObj finalUser).

End Composer.

(** ** The world of the asynchronous operations *)

(** How an awaited promise ends: it resolves, it rejects, or it never
    settles (the code has no timeout and no cancellation). *)
Inductive outcome (A : Type) : Type :=
| Resolved (a : A)
| Rejected (e : exn)
| Pending.
Arguments Resolved {A} a.
Arguments Rejected {A} e.
Arguments Pending {A}.

(** What the composer does to the outside world and to its own state cell,
    in the order in which it happens. *)
Inductive event : Type :=
| ApiRequest (path : string)
| FirebaseSignInWithCustomToken (token : value)
| FirebaseSignOut
| FirebaseOnAuthStateChanged
| Auth0SignupAndAuthorize (options : object)
| Auth0Login (options : object)
| Auth0PopupAuthorize (options : object)
| Auth0Logout
| Auth0ChangePassword (options : object)
| Auth0UpdateEmail (email : value)
| Auth0UpdatePassword (password : value)
| Auth0UpdateProfile (fields : object)
| Auth0GetCurrentUser
| DbCreateUser (uid : value) (fields : object)
| DbUpdateUser (uid : value) (fields : value)
| SetUser (user : value)
| HistoryReplace (path : string).

(** Writes to the identity provider and writes to the data store. *)
Definition is_identity_write (ev : event) : bool :=
  match ev with
  | Auth0UpdateEmail _ | Auth0UpdateProfile _ | Auth0UpdatePassword _
  | Auth0ChangePassword _ => true
  | _ => false
  end.

Definition is_store_write (ev : event) : bool :=
  match ev with
  | DbCreateUser _ _ | DbUpdateUser _ _ => true
  | _ => false
  end.

(** - [user_state]: the cell of [useState(null)];
    - [firebase_user]: the session the Firebase client settles on;
    - [users]: the user collection of the data store, keyed by subject id;
    - [calls]: everything done so far, oldest first. *)
Record World : Type := {
  user_state : value;
  firebase_user : option value;
  users : gmap string object;
  calls : list event
}.

(** The state of [useAuthProvider] on mount. *)
Definition initial_world (firebase : option value) (db : gmap string object) : World :=
  {| user_state := VNull; firebase_user := firebase; users := db; calls := [] |}.

(** What the vendor services answer; the code decides none of it.
    [window_domain] stands for [window.location]. *)
Record Services : Type := {
  apiRequest : string -> outcome value;
  signInWithCustomToken : value -> outcome value;
  signupAndAuthorize : object -> outcome value;
  login : object -> outcome value;
  popupAuthorize : object -> outcome value;
  logout : outcome value;
  changePassword : object -> outcome value;
  auth0_updateEmail : value -> outcome value;
  auth0_updatePassword : value -> outcome value;
  auth0_updateProfile : object -> outcome value;
  getCurrentUser : outcome value;
  db_fault : event -> option exn;
  window_protocol : string;
  window_hostname : string;
  window_port : string
}.

Definition Async (A : Type) : Type := World -> outcome A * World.

Definition resolve {A} (a : A) : Async A := fun w => (Resolved a, w).
Definition reject {A} (e : exn) : Async A := fun w => (Rejected e, w).

(** [await m] followed by the rest of an [async] body. *)
Definition and_then {A B} (m : Async A) (k : A -> Async B) : Async B :=
  fun w =>
    match m w with
    | (Resolved a, w') => k a w'
    | (Rejected e, w') => (Rejected e, w')
    | (Pending, w') => (Pending, w')
    end.

(** An expression evaluated inside an [async] body: a throw rejects. *)
Definition eval {A} (r : result A) : Async A :=
  match r with
  | Ok a => resolve a
  | Throw e => reject e
  end.

Definition record_call (ev : event) : Async unit :=
  fun w => (Resolved tt,
            {| user_state := user_state w; firebase_user := firebase_user w;
               users := users w; calls := (calls w ++ [ev])%list |}).

(** A vendor call: it is made, then it ends the way the service says. *)
Definition vendor {A} (ev : event) (answer : outcome A) : Async A :=
  and_then (record_call ev) (fun _ w => (answer, w)).

(** [setUser] is the write to the state cell. The render that React starts
    on that write is not part of it: an operation ends here as the write
    does, and what the render of the new state returns or throws is the
    subject of [usePrepareUser]. *)
Definition setUser (user : value) : Async unit :=
  fun w => (Resolved tt,
            {| user_state := user; firebase_user := firebase_user w;
               users := users w; calls := (calls w ++ [SetUser user])%list |}).

Definition set_firebase_user (u : option value) : Async unit :=
  fun w => (Resolved tt,
            {| user_state := user_state w; firebase_user := u;
               users := users w; calls := calls w |}).

Definition set_users (db : gmap string object) : Async unit :=
  fun w => (Resolved tt,
            {| user_state := user_state w; firebase_user := firebase_user w;
               users := db; calls := calls w |}).

Declare Scope async_scope.
Delimit Scope async_scope with async.
Notation "'await' x ':=' m 'in' k" := (and_then m (fun x => k))
  (at level 10, x name, m at level 100, k at level 200) : async_scope.

Section Operations.

Variable svc : Services.

Local Open Scope async_scope.

(** ** The data store client *)

(** Modelled from the spec: [createUser] of [./db] (the spec's
    [createRecord(id, fields)]), which is not among the sources. The spec
    has the composer "create the UserRecord if absent" in a collection
    "keyed by subjectId": a record that exists is left as it is, and an id
    that is not a string names no document, so the call is rejected. The
    store may also fail on its own account ([db_fault]). *)
Definition createUser (uid : value) (data : object) : Async unit :=
  await _ := record_call (DbCreateUser uid data) in
  match db_fault svc (DbCreateUser uid data), uid with
  | Some e, _ => reject e
  | None, VStr id =>
      fun w =>
        match users w !! id with
        | Some _ => resolve tt w
        | None => set_users (<[id := data]> (users w)) w
        end
  | None, _ => reject (ServiceError uid)
  end.

(** Modelled from the spec: [updateUser] of [./db] (the spec's
    [updateRecord(id, fields)]), which is not among the sources. It
    "persists the full data": the fields are merged into the record of
    that id. *)
Definition updateUser (uid : value) (data : value) : Async unit :=
  await _ := record_call (DbUpdateUser uid data) in
  match db_fault svc (DbUpdateUser uid data), uid with
  | Some e, _ => reject e
  | None, VStr id =>
      fun w =>
        set_users (<[id := object_assign (default [] (users w !! id)) data]> (users w)) w
  | None, _ => reject (ServiceError uid)
  end.

(** ** The Firebase session *)

Definition setFirebaseToken : Async value :=
  await token := vendor (ApiRequest "auth-firebase-token")
                        (apiRequest svc "auth-firebase-token") in
  await credential := vendor (FirebaseSignInWithCustomToken token)
                             (signInWithCustomToken svc token) in
  await _ := set_firebase_user (Some credential) in
  resolve credential.

(** Waits on Firebase user to be initialized before resolving promise:
    the listener resolves it the first time it is called with a user, and
    nothing ever rejects it. *)
Definition waitForFirebase : Async value :=
  await _ := record_call FirebaseOnAuthStateChanged in
  fun w =>
    match firebase_user w with
    | Some user => (Resolved user, w)
    | None => (Pending, w)
    end.

(** ** The operations of [useAuthProvider] *)

(** Handle response from authentication functions. *)
Definition handleAuth (user : value) : Async value :=
  await _ := setFirebaseToken in
  await _ := waitForFirebase in
  await sub := eval (get_member user "sub") in
  await email := eval (get_member user "email") in
  await _ := createUser sub [("email", email)] in
  await _ := setUser user in
  resolve user.

Definition signup (email password : value) : Async value :=
  let options := [("email", email); ("password", password)] in
  await user := vendor (Auth0SignupAndAuthorize options) (signupAndAuthorize svc options) in
  handleAuth user.

Definition signin (email password : value) : Async value :=
  let options := [("username", email); ("password", password)] in
  await user := vendor (Auth0Login options) (login svc options) in
  handleAuth user.

(** The provider lookup happens before any promise exists: an unknown
    name throws out of the call itself. *)
Definition signinWithProvider (name : value) : result (Async value) :=
  let domain :=
    window_protocol svc ++ "//" ++ window_hostname svc ++
    (if negb (window_port svc =? "") then ":" ++ window_port svc else "") in
  match member_of_found Provider.id
          (find_provider (fun p => strict_eq_string (Provider.name p) name)) with
  | Throw e => Throw e
  | Ok providerId =>
      let options :=
        [("redirectUri", VStr (domain ++ "/auth0-callback"));
         ("connection", VStr providerId)] in
      Ok (await user := vendor (Auth0PopupAuthorize options) (popupAuthorize svc options) in
          handleAuth user)
  end.

(** The Firebase sign-out is started and not awaited. *)
Definition signout : Async value :=
  await _ := record_call FirebaseSignOut in
  await _ := set_firebase_user None in
  vendor Auth0Logout (logout svc).

Definition sendPasswordResetEmail (email : value) : Async value :=
  let options := [("email", email)] in
  vendor (Auth0ChangePassword options) (changePassword svc options).

(** This method is not needed with Auth0. *)
Definition confirmPasswordReset (password code : value) : Async value :=
  reject (CustomError "not_needed"
    "Auth0 handles the password reset flow for you. You can remove this section or page.").

(** The [user] that the closures below read is the one of the render that
    created them: the state cell at the time of the call. *)
Definition updateEmail (email : value) : Async unit :=
  fun w =>
    let user := user_state w in
    (await _ := vendor (Auth0UpdateEmail email) (auth0_updateEmail svc email) in
     setUser (VObj (set_prop (own_props user) "email" email))) w.

Definition updatePassword (password : value) : Async value :=
  vendor (Auth0UpdatePassword password) (auth0_updatePassword svc password).

(** Update auth user and persist to database (including any custom values
    in data). *)
Definition updateProfile (data : value) : Async unit :=
  fun w =>
    let user := user_state w in
    (await email := eval (get_member data "email") in
     await name := eval (get_member data "name") in
     await picture := eval (get_member data "picture") in
     await _ := (if truthy email
                 then await _ := vendor (Auth0UpdateEmail email)
                                        (auth0_updateEmail svc email) in resolve tt
                 else resolve tt) in
     await _ := (if truthy name || truthy picture
                 then
                   let fields : object := [] in
                   let fields := if truthy name then set_prop fields "name" name else fields in
                   let fields := if truthy picture then set_prop fields "picture" picture
                                 else fields in
                   await _ := vendor (Auth0UpdateProfile fields)
                                     (auth0_updateProfile svc fields) in resolve tt
                 else resolve tt) in
     await sub := eval (get_member user "sub") in
     await _ := updateUser sub data in
     await currentUser := vendor Auth0GetCurrentUser (getCurrentUser svc) in
     setUser currentUser) w.

(** The listener passed to [auth0.extended.onChange] on mount. *)
Definition onChange_listener (user : value) : Async unit :=
  if truthy user then
    await _ := waitForFirebase in
    setUser user
  else setUser (VBool false).

End Operations.

(** ** The route guard *)

(** What the wrapper returns for React to draw. *)
Inductive element : Type :=
| PageLoader
| Wrapped (props : value).

(** The effect of [requireAuth]: redirect if not signed in. *)
Definition requireAuth_effect (auth_user : value) : Async unit :=
  match auth_user with
  | VBool false => record_call (HistoryReplace "/auth/signin")
  | _ => resolve tt
  end.

(** The body of [requireAuth]: the loading indicator while there is no
    user, the component once there is one. *)
Definition requireAuth_render (auth_user : value) (props : value) : element :=
  if negb (truthy auth_user) then PageLoader else Wrapped props.

(** One pass of the guard: what it draws, and the world after its effect. *)
Definition requireAuth (auth_user : value) (props : value) (w : World) : element * World :=
  (requireAuth_render auth_user props, (requireAuth_effect auth_user w).2).

(** ** The token exchange endpoint *)

(** What one request leaves behind: the body handed to [res.send], if any,
    and the lines written to the server console. *)
Record exchange : Type := {
  sent : option value;
  logged : list (string * exn)
}.

(** The handler of [auth-firebase-token], given the answer of
    [firebaseAdmin.auth().createCustomToken]. Reading [user.uid] comes before
    the promise chain, out of reach of its [catch]. *)
Definition auth_firebase_token (createCustomToken : value -> outcome value)
    (req_user : value) : result exchange :=
  match get_member req_user "uid" with
  | Throw e => Throw e
  | Ok uid =>
      Ok match createCustomToken uid with
         | Resolved firebaseToken =>
             {| sent := Some (VObj [("status", VStr "success"); ("data", firebaseToken)]);
                logged := [] |}
         | Rejected error =>
             {| sent := Some (VObj [("status", VStr "error");
                                    ("message",
                                     VStr "Something went wrong acquiring a Firebase token")]);
                logged := [("auth-firebase-token error", error)] |}
         | Pending => {| sent := None; logged := [] |}
         end
  end.

(** ** Vocabulary of the specification *)

(** The segment of a subject id before its first separator. *)
Fixpoint prefix_before (sep : ascii) (s : string) : string :=
  match s with
  | EmptyString => EmptyString
  | String c rest => if Ascii.eqb c sep then EmptyString else String c (prefix_before sep rest)
  end.

(** The ids of the five providers. *)
Definition known_provider_ids : list string :=
  ["auth0"; "google-oauth2"; "facebook"; "twitter"; "github"].

(** A subject id is known when it is a string whose prefix names one of the
    five providers. *)
Definition known_subject (sub : value) : bool :=
  match sub with
  | VStr s => existsb (String.eqb (prefix_before "|" s)) known_provider_ids
  | _ => false
  end.

(** The name that the table gives to a provider id, if any. *)
Definition provider_name_of (providerId : string) : option string :=
  Provider.name <$> find_provider (fun p => Provider.id p =? providerId).

(** The identity states: [null] while loading, [false] when signed out, the
    object handed over by the identity provider otherwise. *)
Inductive identity_state : value -> Prop :=
| state_loading : identity_state VNull
| state_signed_out : identity_state (VBool false)
| state_identity (o : object) : identity_state (VObj o).

(** A populated session user: an object that carries the identity fields
    and the provider tag. *)
Definition populated (v : value) : bool :=
  match v with
  | VObj o =>
      forallb (has_prop o) ["uid"; "email"; "emailVerified"; "name"; "picture"; "providers"]
  | _ => false
  end.

(** The three shapes of a session user. *)
Definition session_shape (v : value) : Prop :=
  v = VNull \/ v = VBool false \/ populated v = true.

(** The object that [usePrepareUser] has built when it reaches its
    [switch], and the [switch] itself with what follows it; the lemma
    [prepare_known] below shows that the hook is their composition. *)
Definition base_user (o : object) (providerName : string) : object :=
  set_prop
    [ ("uid", get_prop o "sub"); ("email", get_prop o "email");
      ("emailVerified", get_prop o "email_verified");
      ("name", get_prop o "name"); ("picture", get_prop o "picture") ]
    "providers" (VArr [VStr providerName]).

Definition merge_query (getFriendlyPlanId : value -> value) (finalUser : object)
    (userDbQuery : query) : Render value :=
  (if MERGE_DB_USER then
     if status userDbQuery =? "idle" then ret VNull
     else if status userDbQuery =? "loading" then ret VNull
     else if status userDbQuery =? "error" then
       let! _ := console_error (error userDbQuery) in
       ret VNull
     else if status userDbQuery =? "success" then
       if is_null (data userDbQuery) then ret VNull else
       let merged := object_assign finalUser (data userDbQuery) in
       let! stripePriceId := lift (get_member (data userDbQuery) "stripePriceId") in
       let! stripeSubscriptionStatus :=
         lift (get_member (data userDbQuery) "stripeSubscriptionStatus") in
       ret (VObj
              (set_prop
                 (if truthy stripePriceId
                  then set_prop merged "planId" (getFriendlyPlanId stripePriceId)
                  else merged)
                 "planIsActive"
                 (VBool (includes ["active"; "trialing"] stripeSubscriptionStatus))))
     else ret (VObj finalUser)
   else ret (VObj finalUser))%render.

(** The body that the endpoint sends on any failure of the mint. *)
Definition generic_error_response : value :=
  VObj [("status", VStr "error");
        ("message", VStr "Something went wrong acquiring a Firebase token")].

(** What the caller of the endpoint receives. *)
Definition response_body (r : result exchange) : option value :=
  match r with
  | Ok x => sent x
  | Throw _ => None
  end.

(** What was done between two worlds, the second being a later state of
    the first. *)
Definition calls_since (w w' : World) : list event :=
  drop (length (calls w)) (calls w').

(** Whether the record of [id] came into existence between two worlds. *)
Definition created (id : string) (w w' : World) : bool :=
  bool_decide (users w !! id = None) && bool_decide (is_Some (users w' !! id)).

(** [n] sign-ins of the same identity in a row, and the number of them
    that brought the record of [id] into existence. *)
Fixpoint creations (svc : Services) (user : value) (id : string) (n : nat) (w : World) : nat :=
  match n with
  | 0 => 0
  | S n' =>
      let w' := (handleAuth svc user w).2 in
      (if created id w w' then 1 else 0) + creations svc user id n' w'
  end.

(** ** Sample data *)

(** A price table with a single plan. *)
Definition sample_plans (stripePriceId : value) : value :=
  if strict_eq_string "price_basic" stripePriceId then VStr "basic" else VUndef.

Definition alice : object :=
  [ ("sub", VStr "auth0|42"); ("email", VStr "a@b.com"); ("email_verified", VBool true);
    ("name", VStr "Alice"); ("picture", VStr "https://example.com/a.png") ].

(** An identity issued through a connection that the table does not list. *)
Definition mallory : object :=
  [ ("sub", VStr "samlp|7"); ("email", VStr "m@corp.example") ].

Definition canceled_record : object :=
  [ ("stripePriceId", VStr "price_basic"); ("stripeSubscriptionStatus", VStr "canceled") ].

Definition query_of (st : string) (d : value) : query :=
  {| status := st; data := d; error := VUndef |}.

(** Vendor services that answer every call favourably. *)
Definition happy_services : Services :=
  {| apiRequest := fun _ => Resolved (VStr "firebase-token");
     signInWithCustomToken := fun _ => Resolved (VObj [("uid", VStr "auth0|42")]);
     signupAndAuthorize := fun _ => Resolved (VObj alice);
     login := fun _ => Resolved (VObj alice);
     popupAuthorize := fun _ => Resolved (VObj alice);
     logout := Resolved VUndef;
     changePassword := fun _ => Resolved VUndef;
     auth0_updateEmail := fun _ => Resolved VUndef;
     auth0_updatePassword := fun _ => Resolved VUndef;
     auth0_updateProfile := fun _ => Resolved VUndef;
     getCurrentUser := Resolved (VObj alice);
     db_fault := fun _ => None;
     window_protocol := "https:";
     window_hostname := "app.example.com";
     window_port := "" |}.

(** The same, except that the identity provider refuses to change an
    email. *)
Definition email_rejecting_services : Services :=
  {| apiRequest := apiRequest happy_services;
     signInWithCustomToken := signInWithCustomToken happy_services;
     signupAndAuthorize := signupAndAuthorize happy_services;
     login := login happy_services;
     popupAuthorize := popupAuthorize happy_services;
     logout := logout happy_services;
     changePassword := changePassword happy_services;
     auth0_updateEmail := fun _ => Rejected (ServiceError (VStr "email already in use"));
     auth0_updatePassword := auth0_updatePassword happy_services;
     auth0_updateProfile := auth0_updateProfile happy_services;
     getCurrentUser := getCurrentUser happy_services;
     db_fault := db_fault happy_services;
     window_protocol := window_protocol happy_services;
     window_hostname := window_hostname happy_services;
     window_port := window_port happy_services |}.

(** Alice signed in, her record in the store. *)
Definition signed_in_world : World :=
  {| user_state := VObj alice;
     firebase_user := Some (VObj [("uid", VStr "auth0|42")]);
     users := {[ "auth0|42" := [("email", VStr "a@b.com")] ]};
     calls := [] |}.

(** ** Analytics *)

(** Whether to connect analytics session to [user.uid]. *)
Definition ANALYTICS_IDENTIFY : bool := true.

(** Connect analytics session to current [user.uid]: the arguments of the
    calls to [analytics.identify] that one run of the effect of
    [useIdentifyUser] makes. *)
Definition useIdentifyUser (user : value) : result (list value) :=
  if ANALYTICS_IDENTIFY && truthy user then
    match get_member user "uid" with
    | Ok uid => Ok [uid]
    | Throw e => Throw e
    end
  else Ok [].

(** ** Further vocabulary and sample data *)

(** The names under which the five providers are offered for sign-in. *)
Definition known_provider_names : list string :=
  ["password"; "google"; "facebook"; "twitter"; "github"].

(** [window.location] as [signinWithProvider] assembles it. *)
Definition window_domain (svc : Services) : string :=
  window_protocol svc ++ "//" ++ window_hostname svc ++
  (if negb (window_port svc =? "") then ":" ++ window_port svc else "").

(** The statuses in which the query has nothing to merge yet. *)
Definition not_ready_statuses : list string := ["idle"; "loading"; "error"].

Definition active_record : object :=
  [ ("stripePriceId", VStr "price_basic"); ("stripeSubscriptionStatus", VStr "active");
    ("name", VStr "Al"); ("theme", VStr "dark") ].

(** Vendor services whose store refuses every write. *)
Definition store_failing_services : Services :=
  {| apiRequest := apiRequest happy_services;
     signInWithCustomToken := signInWithCustomToken happy_services;
     signupAndAuthorize := signupAndAuthorize happy_services;
     login := login happy_services;
     popupAuthorize := popupAuthorize happy_services;
     logout := logout happy_services;
     changePassword := changePassword happy_services;
     auth0_updateEmail := auth0_updateEmail happy_services;
     auth0_updatePassword := auth0_updatePassword happy_services;
     auth0_updateProfile := auth0_updateProfile happy_services;
     getCurrentUser := getCurrentUser happy_services;
     db_fault := fun _ => Some (ServiceError (VStr "permission denied"));
     window_protocol := window_protocol happy_services;
     window_hostname := window_hostname happy_services;
     window_port := window_port happy_services |}.

(** Vendor services whose identity provider refuses every sign-in. *)
Definition login_failing_services : Services :=
  {| apiRequest := apiRequest happy_services;
     signInWithCustomToken := signInWithCustomToken happy_services;
     signupAndAuthorize := fun _ => Rejected (ServiceError (VStr "user exists"));
     login := fun _ => Rejected (ServiceError (VStr "wrong password"));
     popupAuthorize := fun _ => Rejected (ServiceError (VStr "popup closed"));
     logout := logout happy_services;
     changePassword := changePassword happy_services;
     auth0_updateEmail := auth0_updateEmail happy_services;
     auth0_updatePassword := auth0_updatePassword happy_services;
     auth0_updateProfile := auth0_updateProfile happy_services;
     getCurrentUser := getCurrentUser happy_services;
     db_fault := db_fault happy_services;
     window_protocol := window_protocol happy_services;
     window_hostname := window_hostname happy_services;
     window_port := window_port happy_services |}.

(** The fields that [updateProfile] hands to the identity provider as
    profile fields, and the writes it makes there, for the data [d]. *)
Definition profile_fields (name picture : value) : object :=
  ((if truthy name then [("name", name)] else []) ++
   (if truthy picture then [("picture", picture)] else []))%list.

Definition identity_writes (d : object) : list event :=
  ((if truthy (get_prop d "email") then [Auth0UpdateEmail (get_prop d "email")] else []) ++
   (if truthy (get_prop d "name") || truthy (get_prop d "picture")
    then [Auth0UpdateProfile (profile_fields (get_prop d "name") (get_prop d "picture"))]
    else []))%list.

Definition full_profile : object :=
  [ ("email", VStr "new@b.com"); ("name", VStr "Alice B."); ("theme", VStr "dark") ].

(** The handler of [auth-firebase-token] once more, for a
    [createCustomToken] that may also throw out of the call itself (the
    admin SDK checks its argument before it returns a promise). Such a throw
    happens while the receiver of [.then] is being evaluated, before the
    promise chain exists and out of reach of its [catch]; when the call
    returns a promise, the handler goes on as [auth_firebase_token] says. *)
Definition auth_firebase_token_call (createCustomToken : value -> result (outcome value))
    (req_user : value) : result exchange :=
  match get_member req_user "uid" with
  | Throw e => Throw e
  | Ok uid =>
      match createCustomToken uid with
      | Throw e => Throw e
      | Ok answer => auth_firebase_token (fun _ => answer) req_user
      end
  end.

(** * Properties *)

#[local] Arguments String.eqb : simpl nomatch.

(** ** Objects *)

Lemma get_set_prop_same (o : object) k v : get_prop (set_prop o k v) k = v.
Proof.
  induction o as [|[k' v'] rest IH]; simpl.
  - by rewrite String.eqb_refl.
  - destruct (k' =? k) eqn:E; simpl; rewrite E; [done | exact IH].
Qed.

Lemma has_set_prop_mono (o : object) k k' v :
  has_prop o k = true -> has_prop (set_prop o k' v) k = true.
Proof.
  induction o as [|[k0 v0] rest IH]; simpl; [done |].
  destruct (k0 =? k) eqn:E; destruct (k0 =? k') eqn:E'; simpl; rewrite E; auto.
Qed.

Lemma has_prop_assign_props (props o : object) k :
  has_prop o k = true ->
  has_prop (foldl (fun acc kv => set_prop acc kv.1 kv.2) o props) k = true.
Proof.
  revert o. induction props as [|[k' v'] rest IH]; intros o H; simpl; [done |].
  apply IH. by apply has_set_prop_mono.
Qed.

Lemma has_prop_object_assign (o : object) (source : value) k :
  has_prop o k = true -> has_prop (object_assign o source) k = true.
Proof. apply has_prop_assign_props. Qed.

(** ** Subject ids and the provider table *)

Lemma split_on_head sep s :
  exists pieces, split_on sep s = prefix_before sep s :: pieces.
Proof.
  induction s as [|c rest [pieces IH]]; simpl; [by eexists |].
  destruct (Ascii.eqb c sep); [by eexists |]. rewrite IH. by eexists.
Qed.

(** [sub.split("|")[0]] is the prefix of the subject id. *)
Lemma split_first (s : string) :
  exists pieces,
    call_split (VStr s) "|" = Ok (VArr pieces)
    /\ get_index (VArr pieces) 0 = Ok (VStr (prefix_before "|" s)).
Proof.
  destruct (split_on_head "|" s) as [pieces E].
  exists (VStr <$> split_on "|" s). split; [done |].
  by rewrite E.
Qed.

Lemma provider_name_known providerId :
  existsb (String.eqb providerId) known_provider_ids = true ->
  is_Some (provider_name_of providerId).
Proof.
  unfold provider_name_of, find_provider, allProviders, known_provider_ids. simpl.
  rewrite !(String.eqb_sym providerId).
  repeat (destruct (_ =? providerId); simpl; [by eexists |]).
  done.
Qed.

Lemma provider_name_unknown providerId :
  existsb (String.eqb providerId) known_provider_ids = false ->
  find_provider (fun p => Provider.id p =? providerId) = None.
Proof.
  unfold find_provider, allProviders, known_provider_ids. simpl.
  rewrite !(String.eqb_sym providerId).
  repeat (destruct (_ =? providerId); simpl; [done |]).
  done.
Qed.

(** ** The merge *)

Lemma bind_lift_ok {A B} (a : A) (f : A -> Render B) : bind (lift (Ok a)) f = f a.
Proof. unfold bind, lift. by destruct (f a). Qed.

Lemma bind_console_error {B} (v : value) (f : unit -> Render B) :
  returned (bind (console_error v) f) = returned (f tt).
Proof. unfold bind, console_error, returned. by destruct (f tt). Qed.

Section Merge.

Variable getFriendlyPlanId : value -> value.

(** An identity whose subject id is not known: the provider lookup finds
    nothing (or there is no string to split) and the render throws. *)
Lemma prepare_unknown (o : object) (q : query) :
  known_subject (get_prop o "sub") = false ->
  usePrepareUser getFriendlyPlanId (VObj o) q = ([], Throw TypeError).
Proof.
  intros Hsub. unfold usePrepareUser. cbn [truthy negb get_member].
  rewrite !bind_lift_ok.
  destruct (get_prop o "sub") as [| | | |s| |] eqn:E; try done.
  destruct (split_first s) as (pieces & -> & Hfirst).
  rewrite bind_lift_ok, Hfirst, bind_lift_ok.
  cbn [strict_eq_string].
  cbn [known_subject] in Hsub.
  by rewrite (provider_name_unknown _ Hsub).
Qed.

(** An identity whose subject id is known: the lookup succeeds and the
    render goes on to the query. *)
Lemma prepare_known (o : object) (q : query) :
  known_subject (get_prop o "sub") = true ->
  exists providerName,
    usePrepareUser getFriendlyPlanId (VObj o) q
    = merge_query getFriendlyPlanId (base_user o providerName) q.
Proof.
  intros Hsub. unfold usePrepareUser. cbn [truthy negb get_member].
  rewrite !bind_lift_ok.
  destruct (get_prop o "sub") as [| | | |s| |] eqn:E; try done.
  destruct (split_first s) as (pieces & -> & Hfirst).
  rewrite bind_lift_ok, Hfirst, bind_lift_ok.
  cbn [strict_eq_string known_subject] in *.
  destruct (provider_name_known _ Hsub) as [nm Hnm].
  unfold provider_name_of in Hnm.
  destruct (find_provider _) as [p|] eqn:Hp; [|done].
  cbn [member_of_found]. rewrite bind_lift_ok.
  exists (Provider.name p). unfold merge_query, base_user. by rewrite E.
Qed.

Lemma base_user_populated (o : object) (nm : string) :
  populated (VObj (base_user o nm)) = true.
Proof. vm_compute. done. Qed.

Lemma populated_set_prop (o : object) k v :
  populated (VObj o) = true -> populated (VObj (set_prop o k v)) = true.
Proof.
  cbn [populated forallb]. rewrite !andb_true_iff.
  intros (?&?&?&?&?&?&_). repeat split; by apply has_set_prop_mono.
Qed.

Lemma populated_object_assign (o : object) (source : value) :
  populated (VObj o) = true -> populated (VObj (object_assign o source)) = true.
Proof.
  cbn [populated forallb]. rewrite !andb_true_iff.
  intros (?&?&?&?&?&?&_). repeat split; by apply has_prop_object_assign.
Qed.

(** Every way out of the [switch]: [null], a populated object, or the
    [TypeError] of destructuring [undefined]. *)
Lemma merge_query_shape (finalUser : object) (q : query) :
  populated (VObj finalUser) = true ->
  match returned (merge_query getFriendlyPlanId finalUser q) with
  | Ok v => v = VNull \/ populated v = true
  | Throw e => e = TypeError /\ status q = "success" /\ data q = VUndef
  end.
Proof.
  intros Hpop. unfold merge_query. cbn [MERGE_DB_USER].
  destruct (status q =? "idle"); [by left |].
  destruct (status q =? "loading"); [by left |].
  destruct (status q =? "error"); [rewrite bind_console_error; by left |].
  destruct (status q =? "success") eqn:Hs; [| by right].
  apply String.eqb_eq in Hs.
  destruct (data q) as [| | b | n | s | items | rec] eqn:Hd;
    cbn [is_null get_member]; try (by left); try done;
    rewrite !bind_lift_ok; right;
    apply populated_set_prop; destruct (truthy _);
    try apply populated_set_prop; by apply populated_object_assign.
Qed.

End Merge.

Lemma existsb_eqb_elem_of (x : string) (l : list string) :
  existsb (String.eqb x) l = true <-> x ∈ l.
Proof.
  rewrite existsb_exists. split.
  - intros (y & Hin & Heq). apply String.eqb_eq in Heq. subst. by apply list_elem_of_In.
  - intros Hin. exists x. split; [by apply list_elem_of_In | apply String.eqb_refl].
Qed.

Lemma known_subject_elem_of (s : string) :
  known_subject (VStr s) = true <-> prefix_before "|" s ∈ known_provider_ids.
Proof. apply existsb_eqb_elem_of. Qed.

(** ** The shape of the session user *)

(** C1. For every identity state ([null], [false] or an identity object) and
    every query result, whatever [usePrepareUser] returns is [null], [false]
    or a populated object, and nothing else. The render produces no value
    at all only by throwing a [TypeError], which happens only for an
    identity whose subject id names no known provider, or for a successful
    query whose data is [undefined]. *)
Theorem session_user_three_shapes (getFriendlyPlanId : value -> value)
    (user : value) (q : query) :
  identity_state user ->
  match returned (usePrepareUser getFriendlyPlanId user q) with
  | Ok v => session_shape v
  | Throw e =>
      e = TypeError
      /\ exists o, user = VObj o
           /\ (known_subject (get_prop o "sub") = false
               \/ (status q = "success" /\ data q = VUndef))
  end.
Proof.
  intros [| |o].
  - by left.
  - right. by left.
  - destruct (known_subject (get_prop o "sub")) eqn:Hsub.
    + destruct (prepare_known getFriendlyPlanId o q Hsub) as [nm ->].
      pose proof (merge_query_shape getFriendlyPlanId _ q
                    (base_user_populated o nm)) as H.
      destruct (returned _) as [v|e].
      * destruct H as [-> | H]; [by left | right; by right].
      * destruct H as (-> & Hs & Hd). split; [done |]. exists o. split; [done |]. by right.
    + rewrite (prepare_unknown getFriendlyPlanId o q Hsub). cbn.
      split; [done |]. exists o. split; [done |]. by left.
Qed.

Lemma session_user_three_shapes_witness :
  identity_state (VObj alice)
  /\ match returned (usePrepareUser sample_plans (VObj alice)
                       (query_of "success" (VObj canceled_record))) with
     | Ok v => session_shape v
     | Throw e =>
         e = TypeError
         /\ exists o, VObj alice = VObj o
              /\ (known_subject (get_prop o "sub") = false
                  \/ (status (query_of "success" (VObj canceled_record)) = "success"
                      /\ data (query_of "success" (VObj canceled_record)) = VUndef))
     end.
Proof.
  split; [constructor |].
  apply (session_user_three_shapes sample_plans (VObj alice)
           (query_of "success" (VObj canceled_record))).
  constructor.
Defined.

(** ** The derived billing fields *)

Lemma includes_active_trialing (st : value) :
  includes ["active"; "trialing"] st = true <-> st = VStr "active" \/ st = VStr "trialing".
Proof.
  destruct st as [| | | |s| |]; cbn [includes existsb];
    try (split; [done | by intros [|]]).
  rewrite !orb_true_iff, !String.eqb_eq. split.
  - intros [-> | [-> | ?]]; [by left | by right | done].
  - intros [[= ->] | [= ->]]; [by left | right; by left].
Qed.

Lemma merge_query_record (getFriendlyPlanId : value -> value)
    (finalUser rec : object) (err : value) :
  exists merged,
    merge_query getFriendlyPlanId finalUser
      {| status := "success"; data := VObj rec; error := err |}
    = ret (VObj (set_prop merged "planIsActive"
                   (VBool (includes ["active"; "trialing"]
                             (get_prop rec "stripeSubscriptionStatus"))))).
Proof.
  unfold merge_query. cbn [MERGE_DB_USER status data is_null get_member].
  change ("success" =? "idle") with false. change ("success" =? "loading") with false.
  change ("success" =? "error") with false. change ("success" =? "success") with true.
  cbn iota. rewrite !bind_lift_ok. by eexists.
Qed.

(** C2. Whenever a user record is merged into a session user, the
    [planIsActive] field of the result is a boolean that is true exactly when
    the record's subscription status is ["active"] or ["trialing"]; with the
    status ["canceled"] it is [false], whatever the other fields of the
    record (the price id among them) are. The merge takes place for every
    identity whose subject id names a known provider. *)
Theorem plan_is_active_iff_status (getFriendlyPlanId : value -> value)
    (o rec : object) (err : value) :
  match returned (usePrepareUser getFriendlyPlanId (VObj o)
                    {| status := "success"; data := VObj rec; error := err |}) with
  | Ok v =>
      exists finalUser b,
        v = VObj finalUser
        /\ get_prop finalUser "planIsActive" = VBool b
        /\ (b = true <-> get_prop rec "stripeSubscriptionStatus" = VStr "active"
                         \/ get_prop rec "stripeSubscriptionStatus" = VStr "trialing")
        /\ (get_prop rec "stripeSubscriptionStatus" = VStr "canceled" -> b = false)
  | Throw e => known_subject (get_prop o "sub") = false
  end.
Proof.
  destruct (known_subject (get_prop o "sub")) eqn:Hsub.
  - destruct (prepare_known getFriendlyPlanId o
                {| status := "success"; data := VObj rec; error := err |} Hsub) as [nm ->].
    destruct (merge_query_record getFriendlyPlanId (base_user o nm) rec err) as [merged ->].
    cbn [returned ret snd].
    eexists _, _. split; [done |]. split; [apply get_set_prop_same |].
    split; [apply includes_active_trialing |].
    by intros ->.
  - by rewrite (prepare_unknown getFriendlyPlanId o _ Hsub).
Qed.

Lemma plan_is_active_iff_status_witness :
  exists finalUser,
    returned (usePrepareUser sample_plans (VObj alice)
                {| status := "success"; data := VObj canceled_record; error := VUndef |})
    = Ok (VObj finalUser)
    /\ get_prop finalUser "planIsActive" = VBool false.
Proof.
  generalize (plan_is_active_iff_status sample_plans alice canceled_record VUndef).
  destruct (returned _) as [v|e]; [| discriminate].
  intros (finalUser & b & -> & Hb & _ & Hcanceled).
  exists finalUser. split; [reflexivity |].
  rewrite Hb. f_equal. exact (Hcanceled eq_refl).
Defined.

(** ** A record that does not exist yet *)

(** C3, as the code has it. For an authenticated identity whose subject
    id is a string with one of the five known provider ids before its first
    separator, a query that succeeded with [data === null] keeps the session
    user at [null]: the render returns [null], not an empty or partly filled
    object, and writes nothing to the console. *)
Theorem missing_record_keeps_null (getFriendlyPlanId : value -> value)
    (o : object) (s : string) (err : value) :
  get_prop o "sub" = VStr s ->
  prefix_before "|" s ∈ known_provider_ids ->
  usePrepareUser getFriendlyPlanId (VObj o)
    {| status := "success"; data := VNull; error := err |}
  = ([], Ok VNull).
Proof.
  intros Hsub Hin.
  assert (known_subject (get_prop o "sub") = true) as Hknown.
  { rewrite Hsub. by apply known_subject_elem_of. }
  by destruct (prepare_known getFriendlyPlanId o
                 {| status := "success"; data := VNull; error := err |} Hknown) as [nm ->].
Qed.

Lemma missing_record_keeps_null_witness :
  get_prop alice "sub" = VStr "auth0|42"
  /\ prefix_before "|" "auth0|42" ∈ known_provider_ids
  /\ usePrepareUser sample_plans (VObj alice)
       {| status := "success"; data := VNull; error := VUndef |}
     = ([], Ok VNull).
Proof.
  assert (prefix_before "|" "auth0|42" ∈ known_provider_ids) as Hin.
  { apply existsb_eqb_elem_of. reflexivity. }
  split; [reflexivity |]. split; [exact Hin |].
  exact (missing_record_keeps_null sample_plans alice "auth0|42" VUndef eq_refl Hin).
Defined.

(** C3 as stated, for every authenticated identity, fails on an identity
    issued through a connection that the provider table does not list: the
    identity is neither [null] nor [false], the query has succeeded with
    [data === null], and the render throws a [TypeError] instead of
    returning [null]. *)
Lemma missing_record_unknown_provider_throws :
  VObj mallory <> VNull
  /\ VObj mallory <> VBool false
  /\ returned (usePrepareUser sample_plans (VObj mallory)
                 {| status := "success"; data := VNull; error := VUndef |})
     = Throw TypeError
  /\ returned (usePrepareUser sample_plans (VObj mallory)
                 {| status := "success"; data := VNull; error := VUndef |})
     <> Ok VNull.
Proof. repeat split; (discriminate || reflexivity). Qed.

(** ** Identities of an unknown provider *)

(** C10. For an authenticated identity whose subject id has a prefix outside
    the five known provider ids, the lookup in the provider table finds no
    entry and the render throws instead of returning a session user,
    whatever the query result; so a value is returned only if the prefix is
    one of the five. *)
Theorem unknown_provider_fails (getFriendlyPlanId : value -> value)
    (o : object) (s : string) (q : query) :
  get_prop o "sub" = VStr s ->
  (prefix_before "|" s ∉ known_provider_ids ->
     find_provider (fun p => strict_eq_string (Provider.id p) (VStr (prefix_before "|" s)))
       = None
     /\ returned (usePrepareUser getFriendlyPlanId (VObj o) q) = Throw TypeError)
  /\ ((exists v, returned (usePrepareUser getFriendlyPlanId (VObj o) q) = Ok v) ->
      prefix_before "|" s ∈ known_provider_ids).
Proof.
  intros Hsub.
  assert (prefix_before "|" s ∉ known_provider_ids ->
          known_subject (get_prop o "sub") = false) as Hunknown.
  { intros Hnot. rewrite Hsub. apply not_true_is_false.
    by rewrite known_subject_elem_of. }
  split.
  - intros Hnot. split.
    + apply provider_name_unknown. apply not_true_is_false.
      by rewrite existsb_eqb_elem_of.
    + by rewrite (prepare_unknown getFriendlyPlanId o q (Hunknown Hnot)).
  - intros [v Hv].
    destruct (decide (prefix_before "|" s ∈ known_provider_ids)) as [|Hnot]; [done |].
    rewrite (prepare_unknown getFriendlyPlanId o q (Hunknown Hnot)) in Hv. done.
Qed.

Lemma unknown_provider_fails_witness :
  get_prop mallory "sub" = VStr "samlp|7"
  /\ (prefix_before "|" "samlp|7" ∉ known_provider_ids)
  /\ returned (usePrepareUser sample_plans (VObj mallory) (query_of "success" VNull))
     = Throw TypeError.
Proof.
  split; [reflexivity |].
  assert (prefix_before "|" "samlp|7" ∉ known_provider_ids) as Hnot.
  { rewrite <- existsb_eqb_elem_of. vm_compute. discriminate. }
  split; [exact Hnot |].
  exact (proj2 (proj1 (unknown_provider_fails sample_plans mallory "samlp|7"
                         (query_of "success" VNull) eq_refl) Hnot)).
Defined.

(** ** Password reset confirmation *)

(** C8. Whatever the password, the code and the state of the world,
    [confirmPasswordReset] is rejected with one and the same error, of code
    ["not_needed"]; it never resolves, and it leaves the world as it found
    it: no call to the identity provider, none to the store, no write to the
    state cell. *)
Theorem confirmPasswordReset_always_rejected (password code : value) (w : World) :
  confirmPasswordReset password code w
  = (Rejected (CustomError "not_needed"
       "Auth0 handles the password reset flow for you. You can remove this section or page."),
     w).
Proof. reflexivity. Qed.

(** ** The route guard *)

Lemma requireAuth_effect_other (auth_user : value) (w : World) :
  auth_user <> VBool false -> requireAuth_effect auth_user w = (Resolved tt, w).
Proof. by destruct auth_user as [| |[|]| | | |]. Qed.

(** C5. One pass of the guard redirects to ["/auth/signin"] if and only if
    the session user is exactly [false], and otherwise leaves the world
    untouched; while the session user is [null] it draws the loading
    placeholder, without redirecting, and once the session user is a
    populated object it draws the wrapped view. *)
Theorem requireAuth_redirects_iff_false (auth_user props : value) (w : World) :
  (calls (requireAuth auth_user props w).2 = (calls w ++ [HistoryReplace "/auth/signin"])%list
   <-> auth_user = VBool false)
  /\ (auth_user <> VBool false -> (requireAuth auth_user props w).2 = w)
  /\ (auth_user = VNull ->
      requireAuth auth_user props w = (PageLoader, w))
  /\ (populated auth_user = true ->
      requireAuth auth_user props w = (Wrapped props, w)).
Proof.
  unfold requireAuth. repeat split.
  - intros Hcalls.
    assert (auth_user = VBool false \/ auth_user <> VBool false) as [|Hne];
      [destruct auth_user as [| |[|]| | | |]; (by left) || (by right) | done |].
    rewrite (requireAuth_effect_other _ w Hne) in Hcalls. cbn in Hcalls.
    apply (f_equal length) in Hcalls. rewrite length_app in Hcalls. cbn in Hcalls. lia.
  - by intros ->.
  - intros Hne. by rewrite (requireAuth_effect_other _ w Hne).
  - by intros ->.
  - destruct auth_user; done.
Qed.

Lemma requireAuth_redirects_iff_false_witness :
  requireAuth (VBool false) VNull (initial_world None ∅)
  = (PageLoader,
     {| user_state := VNull; firebase_user := None; users := ∅;
        calls := [HistoryReplace "/auth/signin"] |})
  /\ requireAuth VNull VNull (initial_world None ∅) = (PageLoader, initial_world None ∅).
Proof.
  split; [reflexivity |].
  exact (proj1 (proj2 (proj2
           (requireAuth_redirects_iff_false VNull VNull (initial_world None ∅)))) eq_refl).
Defined.

(** ** The token exchange endpoint *)

(** C7. For an authenticated request, when the minting call fails the
    endpoint sends the fixed body [generic_error_response], whatever the
    upstream error is: two failures with different errors send the same
    body, and the error only goes to the server console. When the call
    succeeds the endpoint sends the credential under the status
    ["success"]. *)
Theorem token_endpoint_fails_closed (createCustomToken : value -> outcome value)
    (req_user uid : value) :
  get_member req_user "uid" = Ok uid ->
  (forall e, createCustomToken uid = Rejected e ->
     auth_firebase_token createCustomToken req_user
     = Ok {| sent := Some generic_error_response;
             logged := [("auth-firebase-token error", e)] |})
  /\ (forall firebaseToken, createCustomToken uid = Resolved firebaseToken ->
        auth_firebase_token createCustomToken req_user
        = Ok {| sent := Some (VObj [("status", VStr "success"); ("data", firebaseToken)]);
                logged := [] |})
  /\ (forall createCustomToken' e e',
        createCustomToken uid = Rejected e -> createCustomToken' uid = Rejected e' ->
        response_body (auth_firebase_token createCustomToken req_user)
        = response_body (auth_firebase_token createCustomToken' req_user)).
Proof.
  intros Huid. unfold auth_firebase_token. rewrite Huid. repeat split.
  - by intros e ->.
  - by intros tok ->.
  - by intros mint' e e' -> ->.
Qed.

Lemma token_endpoint_fails_closed_witness :
  auth_firebase_token (fun _ => Rejected (ServiceError (VStr "quota exceeded")))
    (VObj [("uid", VStr "auth0|42")])
  = Ok {| sent := Some generic_error_response;
          logged := [("auth-firebase-token error", ServiceError (VStr "quota exceeded"))] |}.
Proof.
  exact (proj1 (token_endpoint_fails_closed
                  (fun _ => Rejected (ServiceError (VStr "quota exceeded")))
                  (VObj [("uid", VStr "auth0|42")]) (VStr "auth0|42") eq_refl)
               (ServiceError (VStr "quota exceeded")) eq_refl).
Defined.

(** ** Sign-out *)

(** C9. A change notification that carries no user (any falsy value)
    publishes [false] in the state cell, and the merge of that state is
    [false] for every query result, hence never [null]. The [signout]
    operation itself does not write the state cell. *)
Theorem sign_out_publishes_false (svc : Services) (getFriendlyPlanId : value -> value)
    (user : value) (w : World) (q : query) :
  truthy user = false ->
  onChange_listener user w
  = (Resolved tt,
     {| user_state := VBool false; firebase_user := firebase_user w; users := users w;
        calls := (calls w ++ [SetUser (VBool false)])%list |})
  /\ usePrepareUser getFriendlyPlanId (user_state (onChange_listener user w).2) q
     = ([], Ok (VBool false))
  /\ returned (usePrepareUser getFriendlyPlanId
                 (user_state (onChange_listener user w).2) q) <> Ok VNull
  /\ user_state (signout svc w).2 = user_state w.
Proof.
  intros Hfalsy. unfold onChange_listener. rewrite Hfalsy.
  split; [reflexivity |]. split; [reflexivity |]. split; [discriminate |].
  unfold signout, vendor, and_then, record_call, set_firebase_user. cbn.
  by destruct (logout svc).
Qed.

Lemma sign_out_publishes_false_witness :
  user_state (onChange_listener VNull signed_in_world).2 = VBool false
  /\ usePrepareUser sample_plans
       (user_state (onChange_listener VNull signed_in_world).2)
       (query_of "idle" VUndef)
     = ([], Ok (VBool false)).
Proof.
  split; [reflexivity |].
  exact (proj1 (proj2 (sign_out_publishes_false happy_services sample_plans VNull
                         signed_in_world (query_of "idle" VUndef) eq_refl))).
Defined.

(** ** Profile updates *)

Lemma calls_since_app (w w' : World) (evs : list event) :
  calls w' = (calls w ++ evs)%list -> calls_since w w' = evs.
Proof. intros E. unfold calls_since. rewrite E. by rewrite drop_app_length. Qed.

(** C6, as the code has it. With an identity signed in and every awaited
    call succeeding, [updateProfile] on data that holds only a truthy (non
    empty) email does exactly four things, in this order: one write to the
    identity provider (the email), one write to the store (the whole data),
    the re-read of the canonical identity, and the publication of what was
    read. *)
Theorem updateProfile_email_only (svc : Services) (e r cu : value) (o : object)
    (id : string) (w : World) :
  truthy e = true ->
  user_state w = VObj o ->
  get_prop o "sub" = VStr id ->
  auth0_updateEmail svc e = Resolved r ->
  db_fault svc (DbUpdateUser (VStr id) (VObj [("email", e)])) = None ->
  getCurrentUser svc = Resolved cu ->
  exists w',
    updateProfile svc (VObj [("email", e)]) w = (Resolved tt, w')
    /\ calls_since w w'
       = [ Auth0UpdateEmail e; DbUpdateUser (VStr id) (VObj [("email", e)]);
           Auth0GetCurrentUser; SetUser cu ]
    /\ List.filter is_identity_write (calls_since w w') = [Auth0UpdateEmail e]
    /\ List.filter is_store_write (calls_since w w')
       = [DbUpdateUser (VStr id) (VObj [("email", e)])]
    /\ user_state w' = cu.
Proof.
  intros He Hw Hsub Hemail Hdb Hcu.
  unfold updateProfile. rewrite Hw.
  unfold and_then, eval, vendor, updateUser, and_then, record_call, setUser, set_users, resolve.
  cbn. rewrite He, Hemail, Hsub, Hdb, Hcu. cbn.
  eexists. split; [reflexivity |].
  assert (calls_since w
            {| user_state := cu; firebase_user := firebase_user w;
               users := <[id:=set_prop (default [] (users w !! id)) "email" e]> (users w);
               calls := ((((calls w ++ [Auth0UpdateEmail e]) ++
                           [DbUpdateUser (VStr id) (VObj [("email", e)])]) ++
                          [Auth0GetCurrentUser]) ++ [SetUser cu])%list |}
          = [ Auth0UpdateEmail e; DbUpdateUser (VStr id) (VObj [("email", e)]);
              Auth0GetCurrentUser; SetUser cu ]) as ->.
  { apply calls_since_app. cbn. by rewrite <- !app_assoc. }
  done.
Qed.

Lemma updateProfile_email_only_witness :
  exists w',
    updateProfile happy_services (VObj [("email", VStr "a@b.com")]) signed_in_world
    = (Resolved tt, w')
    /\ calls_since signed_in_world w'
       = [ Auth0UpdateEmail (VStr "a@b.com");
           DbUpdateUser (VStr "auth0|42") (VObj [("email", VStr "a@b.com")]);
           Auth0GetCurrentUser; SetUser (VObj alice) ].
Proof.
  destruct (updateProfile_email_only happy_services (VStr "a@b.com") VUndef (VObj alice)
              alice "auth0|42" signed_in_world
              eq_refl eq_refl eq_refl eq_refl eq_refl eq_refl)
    as (w' & Hrun & Hcalls & _).
  exists w'. split; [exact Hrun | exact Hcalls].
Defined.

(** C6 as stated fails when the only field is an empty email: the guard
    [if (email)] skips the identity provider, and the call still goes on to
    the store and to the re-read. It also stops short when an awaited call
    fails (here the identity provider rejects the email, and the store is
    never written) or when no identity is signed in (the state cell is
    [null], and reading [user.sub] throws after the identity write). *)
Lemma updateProfile_empty_email_skips_identity_write :
  let run := updateProfile happy_services (VObj [("email", VStr "")]) signed_in_world in
  let refused :=
    updateProfile email_rejecting_services (VObj [("email", VStr "a@b.com")])
      signed_in_world in
  let loading :=
    updateProfile happy_services (VObj [("email", VStr "a@b.com")])
      (initial_world None ∅) in
  (run.1 = Resolved tt
   /\ has_prop [("email", VStr "")] "email" = true
   /\ List.filter is_identity_write (calls_since signed_in_world run.2) = []
   /\ calls_since signed_in_world run.2
      = [ DbUpdateUser (VStr "auth0|42") (VObj [("email", VStr "")]);
          Auth0GetCurrentUser; SetUser (VObj alice) ])
  /\ (refused.1 = Rejected (ServiceError (VStr "email already in use"))
      /\ calls_since signed_in_world refused.2 = [Auth0UpdateEmail (VStr "a@b.com")])
  /\ (loading.1 = Rejected TypeError
      /\ calls_since (initial_world None ∅) loading.2 = [Auth0UpdateEmail (VStr "a@b.com")]).
Proof. vm_compute. repeat split. Qed.

(** ** Creation of the user record *)

Section SignIn.

Variable svc : Services.
Variables (o : object) (id : string) (token credential : value).

Hypothesis subject : get_prop o "sub" = VStr id.
Hypothesis exchange_ok : apiRequest svc "auth-firebase-token" = Resolved token.
Hypothesis firebase_ok : signInWithCustomToken svc token = Resolved credential.
Hypothesis store_ok :
  db_fault svc (DbCreateUser (VStr id) [("email", get_prop o "email")]) = None.

(** One successful pass through [handleAuth], step by step. *)
Lemma handleAuth_run (w : World) :
  handleAuth svc (VObj o) w
  = (Resolved (VObj o),
     {| user_state := VObj o;
        firebase_user := Some credential;
        users := match users w !! id with
                 | Some _ => users w
                 | None => <[id := [("email", get_prop o "email")]]> (users w)
                 end;
        calls := (calls w ++
                  [ ApiRequest "auth-firebase-token"; FirebaseSignInWithCustomToken token;
                    FirebaseOnAuthStateChanged;
                    DbCreateUser (VStr id) [("email", get_prop o "email")];
                    SetUser (VObj o) ])%list |}).
Proof.
  unfold handleAuth, setFirebaseToken, waitForFirebase, createUser, vendor, and_then,
    eval, record_call, set_firebase_user, setUser, set_users, resolve.
  cbn. rewrite exchange_ok. cbn. rewrite firebase_ok. cbn.
  rewrite subject, store_ok. cbn.
  destruct (users w !! id); cbn; by rewrite <- !app_assoc.
Qed.

Lemma handleAuth_record_present (w : World) :
  is_Some (users (handleAuth svc (VObj o) w).2 !! id).
Proof.
  rewrite handleAuth_run. cbn.
  destruct (users w !! id) eqn:E; [by rewrite E | by rewrite lookup_insert_eq].
Qed.

Lemma creations_when_present (n : nat) (w : World) :
  is_Some (users w !! id) -> creations svc (VObj o) id n w = 0.
Proof.
  revert w. induction n as [|n IH]; intros w Hsome; [done |].
  cbn [creations]. rewrite IH by apply handleAuth_record_present.
  unfold created. destruct Hsome as [r Hr]. rewrite Hr.
  by rewrite bool_decide_eq_false_2.
Qed.

Lemma creations_when_absent (n : nat) (w : World) :
  users w !! id = None -> creations svc (VObj o) id (S n) w = 1.
Proof.
  intros Hnone. cbn [creations].
  rewrite creations_when_present by apply handleAuth_record_present.
  unfold created. rewrite bool_decide_eq_true_2 by done.
  by rewrite bool_decide_eq_true_2 by apply handleAuth_record_present.
Qed.

End SignIn.

(** Sign-up and sign-in are the provider's answer followed by [handleAuth]. *)
Lemma signup_then_handleAuth (svc : Services) (email password user : value) (w : World) :
  signupAndAuthorize svc [("email", email); ("password", password)] = Resolved user ->
  signup svc email password w
  = handleAuth svc user
      (record_call (Auth0SignupAndAuthorize [("email", email); ("password", password)]) w).2.
Proof. intros H. unfold signup, vendor, and_then. cbn. by rewrite H. Qed.

Lemma signin_then_handleAuth (svc : Services) (email password user : value) (w : World) :
  login svc [("username", email); ("password", password)] = Resolved user ->
  signin svc email password w
  = handleAuth svc user
      (record_call (Auth0Login [("username", email); ("password", password)]) w).2.
Proof. intros H. unfold signin, vendor, and_then. cbn. by rewrite H. Qed.

Lemma signinWithProvider_then_handleAuth (svc : Services) (name : value) :
  match signinWithProvider svc name with
  | Ok run =>
      exists options,
        forall user w, popupAuthorize svc options = Resolved user ->
          run w = handleAuth svc user (record_call (Auth0PopupAuthorize options) w).2
  | Throw e => e = TypeError
  end.
Proof.
  unfold signinWithProvider.
  destruct (member_of_found _ _) as [providerId|e] eqn:E.
  - eexists. intros user w H. unfold vendor, and_then. cbn. by rewrite H.
  - unfold member_of_found in E. by destruct (find_provider _); simplify_eq.
Qed.

(** C4. When the token exchange, the Firebase sign-in and the store
    succeed, [handleAuth] (which every sign-up and sign-in ends with) resolves
    with the identity after doing, in this order: the token exchange, the
    Firebase sign-in, the wait for the Firebase session, the creation of the
    user record and, last, the publication of the raw identity. The record
    is added only if it is absent, and a record that exists is left as it
    is; so over any number of sign-ins of an identity that has no record yet,
    the record comes into existence exactly once, at the first of them. The
    change notification never touches the store. *)
Theorem user_record_created_once (svc : Services) (o : object) (id : string)
    (token credential : value) (w : World) :
  get_prop o "sub" = VStr id ->
  apiRequest svc "auth-firebase-token" = Resolved token ->
  signInWithCustomToken svc token = Resolved credential ->
  db_fault svc (DbCreateUser (VStr id) [("email", get_prop o "email")]) = None ->
  exists w',
    handleAuth svc (VObj o) w = (Resolved (VObj o), w')
    /\ calls_since w w'
       = [ ApiRequest "auth-firebase-token"; FirebaseSignInWithCustomToken token;
           FirebaseOnAuthStateChanged;
           DbCreateUser (VStr id) [("email", get_prop o "email")];
           SetUser (VObj o) ]
    /\ user_state w' = VObj o
    /\ (users w !! id = None ->
        users w' = <[id := [("email", get_prop o "email")]]> (users w))
    /\ (is_Some (users w !! id) -> users w' = users w)
    /\ (forall n, users w !! id = None -> creations svc (VObj o) id (S n) w = 1)
    /\ (forall n, is_Some (users w !! id) -> creations svc (VObj o) id n w = 0)
    /\ (forall user, users (onChange_listener user w).2 = users w).
Proof.
  intros Hsub Htoken Hfirebase Hstore.
  eexists. split; [by apply handleAuth_run |].
  split; [apply calls_since_app; reflexivity |].
  split; [reflexivity |].
  split; [by intros -> |].
  split; [by intros [r ->] |].
  split; [intros n; by apply (creations_when_absent svc o id token credential) |].
  split; [intros n; by apply (creations_when_present svc o id token credential) |].
  intros user. unfold onChange_listener, waitForFirebase, and_then, record_call, setUser.
  destruct (truthy user); cbn; [| done].
  by destruct (firebase_user w).
Qed.

Lemma user_record_created_once_witness :
  creations happy_services (VObj alice) "auth0|42" 3 (initial_world None ∅) = 1
  /\ exists w',
       handleAuth happy_services (VObj alice) (initial_world None ∅)
       = (Resolved (VObj alice), w')
       /\ users w' = {[ "auth0|42" := [("email", VStr "a@b.com")] ]}.
Proof.
  destruct (user_record_created_once happy_services alice "auth0|42"
              (VStr "firebase-token") (VObj [("uid", VStr "auth0|42")])
              (initial_world None ∅) eq_refl eq_refl eq_refl eq_refl)
    as (w' & Hrun & _ & _ & Hnew & _ & Honce & _).
  split; [exact (Honce 2 eq_refl) |].
  exists w'. split; [exact Hrun |]. exact (Hnew eq_refl).
Defined.

(** * Further properties *)

#[local] Arguments String.eqb : simpl nomatch.

(** ** More on the merge *)

(** The lookup of a known identity, with the name it finds. *)
Lemma prepare_known_name (getFriendlyPlanId : value -> value) (o : object) (q : query) :
  known_subject (get_prop o "sub") = true ->
  exists s providerName,
    get_prop o "sub" = VStr s
    /\ provider_name_of (prefix_before "|" s) = Some providerName
    /\ usePrepareUser getFriendlyPlanId (VObj o) q
       = merge_query getFriendlyPlanId (base_user o providerName) q.
Proof.
  intros Hsub. unfold usePrepareUser. cbn [truthy negb get_member].
  rewrite !bind_lift_ok.
  destruct (get_prop o "sub") as [| | | |s| |] eqn:E; try done.
  destruct (split_first s) as (pieces & -> & Hfirst).
  rewrite bind_lift_ok, Hfirst, bind_lift_ok.
  cbn [strict_eq_string known_subject] in *.
  destruct (provider_name_known _ Hsub) as [nm Hnm].
  unfold provider_name_of in *.
  destruct (find_provider _) as [p|] eqn:Hp; [|done].
  cbn [member_of_found]. rewrite bind_lift_ok.
  exists s, (Provider.name p). split; [done |]. split; [by rewrite Hp |].
  unfold merge_query, base_user. by rewrite E.
Qed.

(** X1. While the query of a known identity is idle, loading or failed,
    the session user is [null]; the failed query, and only it, writes its
    error to the console, once. *)
Theorem query_not_ready_is_null (getFriendlyPlanId : value -> value)
    (o : object) (q : query) :
  known_subject (get_prop o "sub") = true ->
  status q ∈ not_ready_statuses ->
  usePrepareUser getFriendlyPlanId (VObj o) q
  = ((if status q =? "error" then [error q] else []), Ok VNull).
Proof.
  intros Hsub Hst.
  destruct (prepare_known getFriendlyPlanId o q Hsub) as [nm ->].
  unfold merge_query, not_ready_statuses in *. destruct q as [st d e]. cbn in *.
  rewrite !elem_of_cons, elem_of_nil in Hst.
  by destruct Hst as [-> | [-> | [-> | []]]].
Qed.

Lemma query_not_ready_is_null_witness :
  usePrepareUser sample_plans (VObj alice)
    {| status := "error"; data := VUndef; error := VStr "offline" |}
  = ([VStr "offline"], Ok VNull).
Proof.
  apply (query_not_ready_is_null sample_plans alice
           {| status := "error"; data := VUndef; error := VStr "offline" |}).
  - reflexivity.
  - unfold not_ready_statuses. cbn. rewrite !elem_of_cons. right. right. by left.
Defined.

Lemma merge_query_console (getFriendlyPlanId : value -> value) (finalUser : object)
    (q : query) :
  console (merge_query getFriendlyPlanId finalUser q)
  = if status q =? "error" then [error q] else [].
Proof.
  unfold merge_query. destruct q as [st d e]. cbn.
  destruct (st =? "idle") eqn:E1; [apply String.eqb_eq in E1; by subst |].
  destruct (st =? "loading") eqn:E2; [apply String.eqb_eq in E2; by subst |].
  destruct (st =? "error") eqn:E3; [done |].
  destruct (st =? "success") eqn:E4; [| done].
  destruct d; cbn; try done; by rewrite !bind_lift_ok.
Qed.

(** X2. A render writes to the console in one case only: an identity of a
    known provider whose query has failed, and then it writes the error of
    the query and nothing else. In the states [null] and [false] the query
    is not looked at. *)
Theorem console_only_on_query_error (getFriendlyPlanId : value -> value)
    (user : value) (q : query) :
  identity_state user ->
  console (usePrepareUser getFriendlyPlanId user q)
  = if match user with
       | VObj o => known_subject (get_prop o "sub")
       | _ => false
       end && (status q =? "error")
    then [error q] else [].
Proof.
  intros [| |o]; [done | done |].
  destruct (known_subject (get_prop o "sub")) eqn:Hsub.
  - destruct (prepare_known getFriendlyPlanId o q Hsub) as [nm ->].
    apply merge_query_console.
  - by rewrite (prepare_unknown getFriendlyPlanId o q Hsub).
Qed.

Lemma console_only_on_query_error_witness :
  console (usePrepareUser sample_plans (VBool false)
             {| status := "error"; data := VUndef; error := VStr "offline" |})
  = [].
Proof.
  exact (console_only_on_query_error sample_plans (VBool false)
           {| status := "error"; data := VUndef; error := VStr "offline" |}
           state_signed_out).
Defined.

(** X3. The [switch] has no default: for a status other than the four it
    names, a known identity gets the object built from the identity alone
    (subject id, email, verification flag, name, picture, provider tag); the
    data of the query is not merged and no billing field is set. *)
Theorem unknown_status_skips_merge (getFriendlyPlanId : value -> value)
    (o : object) (q : query) :
  known_subject (get_prop o "sub") = true ->
  status q ∉ ["idle"; "loading"; "error"; "success"] ->
  exists s providerName,
    get_prop o "sub" = VStr s
    /\ provider_name_of (prefix_before "|" s) = Some providerName
    /\ usePrepareUser getFriendlyPlanId (VObj o) q
       = ([], Ok (VObj [ ("uid", VStr s); ("email", get_prop o "email");
                         ("emailVerified", get_prop o "email_verified");
                         ("name", get_prop o "name"); ("picture", get_prop o "picture");
                         ("providers", VArr [VStr providerName]) ])).
Proof.
  intros Hsub Hst.
  destruct (prepare_known_name getFriendlyPlanId o q Hsub) as (s & nm & Hs & Hnm & ->).
  exists s, nm. split; [done |]. split; [done |].
  rewrite !not_elem_of_cons in Hst. destruct Hst as (H1 & H2 & H3 & H4 & _).
  unfold merge_query. cbn [MERGE_DB_USER].
  apply String.eqb_neq in H1, H2, H3, H4. rewrite H1, H2, H3, H4.
  unfold base_user. cbn. by rewrite Hs.
Qed.

Lemma unknown_status_skips_merge_witness :
  exists s providerName,
    get_prop alice "sub" = VStr s
    /\ provider_name_of (prefix_before "|" s) = Some providerName
    /\ usePrepareUser sample_plans (VObj alice) (query_of "stale" (VObj active_record))
       = ([], Ok (VObj [ ("uid", VStr s); ("email", get_prop alice "email");
                         ("emailVerified", get_prop alice "email_verified");
                         ("name", get_prop alice "name");
                         ("picture", get_prop alice "picture");
                         ("providers", VArr [VStr providerName]) ])).
Proof.
  apply (unknown_status_skips_merge sample_plans alice
           (query_of "stale" (VObj active_record))).
  - reflexivity.
  - cbn. rewrite !not_elem_of_cons. repeat split; try discriminate. apply not_elem_of_nil.
Defined.

(** ** Precedence in the merged object *)

Lemma get_set_prop_other (o : object) k k' v :
  k <> k' -> get_prop (set_prop o k' v) k = get_prop o k.
Proof.
  intros Hne. induction o as [|[k0 v0] rest IH]; cbn.
  - destruct (k' =? k) eqn:E; [apply String.eqb_eq in E; congruence | done].
  - destruct (k0 =? k') eqn:E'; cbn.
    + apply String.eqb_eq in E'. subst k0.
      destruct (k' =? k) eqn:E; [apply String.eqb_eq in E; congruence | done].
    + destruct (k0 =? k); [done | exact IH].
Qed.

Lemma has_prop_false (o : object) k : k ∉ o.*1 -> has_prop o k = false.
Proof.
  induction o as [|[k0 v0] rest IH]; cbn; [done |].
  rewrite not_elem_of_cons. intros [Hne Hrest].
  destruct (k0 =? k) eqn:E; [apply String.eqb_eq in E; congruence | by apply IH].
Qed.

Lemma get_prop_absent (o : object) k : has_prop o k = false -> get_prop o k = VUndef.
Proof.
  induction o as [|[k0 v0] rest IH]; cbn; [done |].
  destruct (k0 =? k); [done | exact IH].
Qed.

(** With distinct keys in the source, [Object.assign] gives every key of
    the source the value of the source and leaves the other keys of the
    target alone. *)
Lemma get_prop_assign_props (props o : object) k :
  NoDup props.*1 ->
  get_prop (foldl (fun acc kv => set_prop acc kv.1 kv.2) o props) k
  = if has_prop props k then get_prop props k else get_prop o k.
Proof.
  revert o. induction props as [|[k0 v0] rest IH]; intros o Hnd; cbn; [done |].
  cbn in Hnd. apply NoDup_cons in Hnd as [Hnotin Hnd].
  rewrite (IH _ Hnd).
  destruct (k0 =? k) eqn:E.
  - apply String.eqb_eq in E. subst k0.
    rewrite (has_prop_false _ _ Hnotin). apply get_set_prop_same.
  - apply String.eqb_neq in E.
    destruct (has_prop rest k); [done |]. apply get_set_prop_other. congruence.
Qed.

Lemma merge_query_record_explicit (getFriendlyPlanId : value -> value)
    (finalUser rec : object) (err : value) :
  merge_query getFriendlyPlanId finalUser
    {| status := "success"; data := VObj rec; error := err |}
  = ret (VObj (set_prop
                 (if truthy (get_prop rec "stripePriceId")
                  then set_prop (object_assign finalUser (VObj rec)) "planId"
                         (getFriendlyPlanId (get_prop rec "stripePriceId"))
                  else object_assign finalUser (VObj rec))
                 "planIsActive"
                 (VBool (includes ["active"; "trialing"]
                           (get_prop rec "stripeSubscriptionStatus"))))).
Proof.
  unfold merge_query. cbn [MERGE_DB_USER status data is_null get_member].
  change ("success" =? "idle") with false. change ("success" =? "loading") with false.
  change ("success" =? "error") with false. change ("success" =? "success") with true.
  cbn iota. by rewrite !bind_lift_ok.
Qed.

(** X4. In the merged session user the record wins: every field that the
    record has (apart from the two derived ones) carries the record's value,
    also when the identity has a field of that name ([email], [name], [uid]
    ...); a field that the record lacks keeps the value taken from the
    identity. *)
Theorem record_fields_override_identity (getFriendlyPlanId : value -> value)
    (o rec : object) (err : value) :
  known_subject (get_prop o "sub") = true ->
  NoDup rec.*1 ->
  exists s providerName finalUser,
    get_prop o "sub" = VStr s
    /\ provider_name_of (prefix_before "|" s) = Some providerName
    /\ usePrepareUser getFriendlyPlanId (VObj o)
         {| status := "success"; data := VObj rec; error := err |}
       = ([], Ok (VObj finalUser))
    /\ forall k, k <> "planId" -> k <> "planIsActive" ->
         get_prop finalUser k
         = if has_prop rec k then get_prop rec k
           else get_prop (base_user o providerName) k.
Proof.
  intros Hsub Hnd.
  destruct (prepare_known_name getFriendlyPlanId o
              {| status := "success"; data := VObj rec; error := err |} Hsub)
    as (s & nm & Hs & Hnm & ->).
  rewrite merge_query_record_explicit.
  exists s, nm. eexists. split; [done |]. split; [done |]. split; [reflexivity |].
  intros k Hk1 Hk2.
  rewrite get_set_prop_other by done.
  destruct (truthy _); [rewrite get_set_prop_other by done |];
    by apply get_prop_assign_props.
Qed.

Lemma record_fields_override_identity_witness :
  exists finalUser,
    usePrepareUser sample_plans (VObj alice)
      {| status := "success"; data := VObj active_record; error := VUndef |}
    = ([], Ok (VObj finalUser))
    /\ get_prop finalUser "name" = VStr "Al"
    /\ get_prop finalUser "email" = VStr "a@b.com".
Proof.
  assert (NoDup active_record.*1) as Hnd.
  { apply (bool_decide_unpack _). vm_compute. exact I. }
  destruct (record_fields_override_identity sample_plans alice active_record VUndef
              eq_refl Hnd) as (s & nm & finalUser & _ & Hnm & Hrun & Hget).
  exists finalUser. split; [exact Hrun |].
  split; [exact (Hget "name" ltac:(discriminate) ltac:(discriminate)) |].
  exact (Hget "email" ltac:(discriminate) ltac:(discriminate)).
Defined.

(** X5. The plan name of the merged session user: when the record has a
    truthy [stripePriceId], [planId] is what [getFriendlyPlanId] makes of it,
    whatever [planId] the record itself may hold; otherwise no plan name is
    derived and [planId] is the record's own ([undefined] if it has none). *)
Theorem plan_id_from_price (getFriendlyPlanId : value -> value)
    (o rec : object) (err : value) :
  known_subject (get_prop o "sub") = true ->
  NoDup rec.*1 ->
  exists finalUser,
    usePrepareUser getFriendlyPlanId (VObj o)
      {| status := "success"; data := VObj rec; error := err |}
    = ([], Ok (VObj finalUser))
    /\ get_prop finalUser "planId"
       = if truthy (get_prop rec "stripePriceId")
         then getFriendlyPlanId (get_prop rec "stripePriceId")
         else get_prop rec "planId".
Proof.
  intros Hsub Hnd.
  destruct (prepare_known getFriendlyPlanId o
              {| status := "success"; data := VObj rec; error := err |} Hsub) as [nm ->].
  rewrite merge_query_record_explicit.
  eexists. split; [reflexivity |].
  rewrite get_set_prop_other by done.
  destruct (truthy _); [apply get_set_prop_same |].
  unfold object_assign. cbn [own_props]. rewrite get_prop_assign_props by done.
  destruct (has_prop rec "planId") eqn:E; [done |].
  by rewrite (get_prop_absent _ _ E).
Qed.

Lemma plan_id_from_price_witness :
  exists finalUser,
    usePrepareUser sample_plans (VObj alice)
      {| status := "success"; data := VObj active_record; error := VUndef |}
    = ([], Ok (VObj finalUser))
    /\ get_prop finalUser "planId" = VStr "basic".
Proof.
  assert (NoDup active_record.*1) as Hnd.
  { apply (bool_decide_unpack _). vm_compute. exact I. }
  destruct (plan_id_from_price sample_plans alice active_record VUndef eq_refl Hnd)
    as (finalUser & Hrun & Hplan).
  exists finalUser. split; [exact Hrun | exact Hplan].
Defined.

(** ** The guard over the merge *)

Lemma merge_query_not_ready (getFriendlyPlanId : value -> value) (finalUser : object)
    (q : query) :
  status q ∈ not_ready_statuses ->
  returned (merge_query getFriendlyPlanId finalUser q) = Ok VNull.
Proof.
  unfold merge_query, not_ready_statuses. destruct q as [st d e]. cbn.
  rewrite !elem_of_cons, elem_of_nil.
  by intros [-> | [-> | [-> | []]]].
Qed.

Lemma merge_query_ready (getFriendlyPlanId : value -> value) (finalUser : object)
    (q : query) :
  status q ∉ not_ready_statuses ->
  (status q = "success" -> data q <> VNull /\ data q <> VUndef) ->
  exists merged, returned (merge_query getFriendlyPlanId finalUser q) = Ok (VObj merged).
Proof.
  unfold merge_query, not_ready_statuses. destruct q as [st d e]. cbn.
  rewrite !not_elem_of_cons. intros (H1 & H2 & H3 & _) Hdata.
  apply String.eqb_neq in H1, H2, H3. rewrite H1, H2, H3.
  destruct (st =? "success") eqn:E; [| by eexists].
  apply String.eqb_eq in E. destruct (Hdata E) as [Hnull Hundef].
  destruct d; cbn; try done; rewrite ?bind_lift_ok; by eexists.
Qed.

(** X6. The guard over the merge: for an identity state and a query
    result, the protected view is drawn exactly when the state is an
    identity of a known provider, the query is neither idle, loading nor
    failed, and a successful query did bring data. In every other case the
    user sees the loading placeholder, or the render has thrown. *)
Theorem protected_view_iff_merged (getFriendlyPlanId : value -> value)
    (user props : value) (q : query) :
  identity_state user ->
  (exists v, returned (usePrepareUser getFriendlyPlanId user q) = Ok v
             /\ requireAuth_render v props = Wrapped props)
  <-> (exists o, user = VObj o
         /\ known_subject (get_prop o "sub") = true
         /\ (status q ∉ not_ready_statuses)
         /\ (status q = "success" -> data q <> VNull /\ data q <> VUndef)).
Proof.
  intros Hstate. split.
  - intros (v & Hv & Hdraw). destruct Hstate as [| |o].
    + cbn in Hv. by simplify_eq.
    + cbn in Hv. by simplify_eq.
    + exists o. split; [done |].
      destruct (known_subject (get_prop o "sub")) eqn:Hsub;
        [| by rewrite (prepare_unknown getFriendlyPlanId o q Hsub) in Hv].
      split; [done |].
      destruct (prepare_known getFriendlyPlanId o q Hsub) as [nm Hrun].
      rewrite Hrun in Hv. split.
      * intros Hin. rewrite (merge_query_not_ready _ _ _ Hin) in Hv. by simplify_eq.
      * intros Hs. destruct q as [st d e]. cbn in Hs. subst st. split; intros Hd.
        -- cbn in Hd. subst d. cbn in Hv. by simplify_eq.
        -- cbn in Hd. subst d. by cbn in Hv.
  - intros (o & -> & Hsub & Hst & Hdata).
    destruct (prepare_known getFriendlyPlanId o q Hsub) as [nm ->].
    destruct (merge_query_ready getFriendlyPlanId (base_user o nm) q Hst Hdata)
      as [merged ->].
    by eexists.
Qed.

Lemma protected_view_iff_merged_witness :
  exists v,
    returned (usePrepareUser sample_plans (VObj alice)
                (query_of "success" (VObj active_record))) = Ok v
    /\ requireAuth_render v VNull = Wrapped VNull.
Proof.
  apply (protected_view_iff_merged sample_plans (VObj alice) VNull
           (query_of "success" (VObj active_record)) (state_identity alice)).
  exists alice. split; [reflexivity |]. split; [reflexivity |]. split.
  - unfold not_ready_statuses. cbn. rewrite !not_elem_of_cons.
    repeat split; try discriminate. apply not_elem_of_nil.
  - intros _. split; discriminate.
Defined.

(** ** Analytics over the merge *)

(** X7. The analytics session is identified exactly when the session user
    is an object, with the [uid] of that object, and never while it is
    [null] or [false]; the effect never throws on a session user. For a
    merged record without a field [uid], that [uid] is the subject id of
    the identity; a record that has the field replaces it. *)
Theorem analytics_identifies_session_user (getFriendlyPlanId : value -> value)
    (user : value) (q : query) :
  identity_state user ->
  match returned (usePrepareUser getFriendlyPlanId user q) with
  | Ok (VObj finalUser) => useIdentifyUser (VObj finalUser) = Ok [get_prop finalUser "uid"]
  | Ok v => useIdentifyUser v = Ok []
  | Throw _ => True
  end
  /\ (forall o rec err, user = VObj o ->
        q = {| status := "success"; data := VObj rec; error := err |} ->
        known_subject (get_prop o "sub") = true -> NoDup rec.*1 ->
        exists finalUser,
          returned (usePrepareUser getFriendlyPlanId user q) = Ok (VObj finalUser)
          /\ get_prop finalUser "uid"
             = if has_prop rec "uid" then get_prop rec "uid" else get_prop o "sub").
Proof.
  intros Hstate. split.
  - destruct Hstate as [| |o]; [done | done |].
    destruct (known_subject (get_prop o "sub")) eqn:Hsub.
    + destruct (prepare_known getFriendlyPlanId o q Hsub) as [nm ->].
      pose proof (merge_query_shape getFriendlyPlanId _ q (base_user_populated o nm)) as H.
      destruct (returned _) as [v|e]; [| done].
      destruct H as [-> | H]; [done |]. by destruct v.
    + by rewrite (prepare_unknown getFriendlyPlanId o q Hsub).
  - intros o rec err -> -> Hsub Hnd.
    destruct (prepare_known getFriendlyPlanId o
                {| status := "success"; data := VObj rec; error := err |} Hsub) as [nm ->].
    rewrite merge_query_record_explicit.
    eexists. split; [reflexivity |].
    rewrite get_set_prop_other by done.
    destruct (truthy _); [rewrite get_set_prop_other by done |];
      unfold object_assign; cbn [own_props]; by rewrite get_prop_assign_props.
Qed.

Lemma analytics_identifies_session_user_witness :
  exists finalUser,
    returned (usePrepareUser sample_plans (VObj alice)
                (query_of "success" (VObj active_record))) = Ok (VObj finalUser)
    /\ get_prop finalUser "uid" = VStr "auth0|42".
Proof.
  assert (NoDup active_record.*1) as Hnd.
  { apply (bool_decide_unpack _). vm_compute. exact I. }
  exact (proj2 (analytics_identifies_session_user sample_plans (VObj alice)
                  (query_of "success" (VObj active_record)) (state_identity alice))
               alice active_record VUndef eq_refl eq_refl eq_refl Hnd).
Defined.

(** ** Subjects that cannot be looked up *)

(** X8. An identity object whose [sub] is missing or is not a string makes
    the render throw a [TypeError], for every query result and without any
    console output. *)
Theorem identity_without_subject_throws (getFriendlyPlanId : value -> value)
    (o : object) (q : query) :
  (forall s, get_prop o "sub" <> VStr s) ->
  usePrepareUser getFriendlyPlanId (VObj o) q = ([], Throw TypeError).
Proof.
  intros Hsub. apply prepare_unknown.
  destruct (get_prop o "sub") as [| | | |s| |] eqn:E; try done.
  by destruct (Hsub s).
Qed.

Lemma identity_without_subject_throws_witness :
  usePrepareUser sample_plans (VObj [("email", VStr "a@b.com")]) (query_of "idle" VUndef)
  = ([], Throw TypeError).
Proof.
  apply (identity_without_subject_throws sample_plans [("email", VStr "a@b.com")]
           (query_of "idle" VUndef)).
  intros s. discriminate.
Defined.

(** ** Signing in *)

Ltac run_async :=
  unfold and_then, vendor, record_call, eval, resolve, reject, setUser,
    set_firebase_user, set_users;
  cbn.

Lemma vendor_then {A B} (ev : event) (answer : outcome A) (k : A -> Async B) (w : World) :
  and_then (vendor ev answer) k w
  = match answer with
    | Resolved a => k a (record_call ev w).2
    | Rejected e => (Rejected e, (record_call ev w).2)
    | Pending => (Pending, (record_call ev w).2)
    end.
Proof. unfold vendor, and_then, record_call. cbn. by destruct answer. Qed.

Lemma calls_since_record_call (ev : event) (w : World) :
  calls_since w (record_call ev w).2 = [ev].
Proof. by apply calls_since_app. Qed.

(** The two ways in which [handleAuth] can go: either every step before
    the write of the state cell has resolved and the write is made, or a
    step has failed, the state cell is not written and the call does not
    resolve. *)
Lemma handleAuth_steps (svc : Services) (user : value) (w : World) :
  (exists token credential sub email,
     apiRequest svc "auth-firebase-token" = Resolved token
     /\ signInWithCustomToken svc token = Resolved credential
     /\ get_member user "sub" = Ok sub
     /\ get_member user "email" = Ok email
     /\ calls (handleAuth svc user w).2
        = (calls w ++
           [ ApiRequest "auth-firebase-token"; FirebaseSignInWithCustomToken token;
             FirebaseOnAuthStateChanged; DbCreateUser sub [("email", email)];
             SetUser user ])%list
     /\ user_state (handleAuth svc user w).2 = user
     /\ (handleAuth svc user w).1 = Resolved user)
  \/ (user_state (handleAuth svc user w).2 = user_state w
      /\ (exists evs, calls (handleAuth svc user w).2 = (calls w ++ evs)%list
                      /\ Forall (fun ev => forall u, ev <> SetUser u) evs)
      /\ forall v, (handleAuth svc user w).1 <> Resolved v).
Proof.
  unfold handleAuth, setFirebaseToken, waitForFirebase, createUser. run_async.
  destruct (apiRequest svc _) as [token| |] eqn:Ht; cbn;
    try (right; split; [done |]; split; [| done];
         eexists; split; [reflexivity |]; by repeat constructor).
  destruct (signInWithCustomToken svc _) as [credential| |] eqn:Hc; cbn;
    try (right; split; [done |]; split; [| done];
         eexists; split; [by rewrite <- ?app_assoc |]; by repeat constructor).
  destruct (get_member user "sub") as [sub|] eqn:Hsub; cbn;
    try (right; split; [done |]; split; [| done];
         eexists; split; [by rewrite <- ?app_assoc |]; by repeat constructor).
  destruct (get_member user "email") as [email|] eqn:Hemail; cbn;
    try (right; split; [done |]; split; [| done];
         eexists; split; [by rewrite <- ?app_assoc |]; by repeat constructor).
  destruct (db_fault svc _); cbn;
    try (right; split; [done |]; split; [| done];
         eexists; split; [by rewrite <- ?app_assoc |]; by repeat constructor).
  destruct sub as [| | | |id| |]; cbn;
    try (right; split; [done |]; split; [| done];
         eexists; split; [by rewrite <- ?app_assoc |]; by repeat constructor).
  left. exists token, credential, (VStr id), email.
  destruct (users w !! id); cbn; repeat split; by rewrite <- ?app_assoc.
Qed.


(** X10. Signing up and signing in with a password. When the call resolves,
    the identity provider has answered with the identity that the call
    resolves with, and the state cell holds that identity. When the identity
    provider does not resolve, its answer is the outcome of the call, the
    only call made is that sign-in or sign-up (no token request, no Firebase
    sign-in, no store write) and the state cell is as it was. *)
Theorem password_sign_in_outcome (svc : Services) (email password : value) (w : World) :
  let options := [("username", email); ("password", password)] in
  let options' := [("email", email); ("password", password)] in
  (forall v, (signin svc email password w).1 = Resolved v ->
     login svc options = Resolved v /\ user_state (signin svc email password w).2 = v)
  /\ (forall v, (signup svc email password w).1 = Resolved v ->
        signupAndAuthorize svc options' = Resolved v
        /\ user_state (signup svc email password w).2 = v)
  /\ ((forall v, login svc options <> Resolved v) ->
      (signin svc email password w).1 = login svc options
      /\ calls_since w (signin svc email password w).2 = [Auth0Login options]
      /\ user_state (signin svc email password w).2 = user_state w)
  /\ ((forall v, signupAndAuthorize svc options' <> Resolved v) ->
      (signup svc email password w).1 = signupAndAuthorize svc options'
      /\ calls_since w (signup svc email password w).2 = [Auth0SignupAndAuthorize options']
      /\ user_state (signup svc email password w).2 = user_state w).
Proof.
  cbn zeta. unfold signin, signup. rewrite !vendor_then.
  assert (forall (u : value) (w1 : World) v,
            (handleAuth svc u w1).1 = Resolved v ->
            u = v /\ user_state (handleAuth svc u w1).2 = v) as Hres.
  { intros u w1 v Hv.
    destruct (handleAuth_steps svc u w1)
      as [(_ & _ & _ & _ & _ & _ & _ & _ & _ & Hstate & Hr) | (_ & _ & Hnot)];
      [| by destruct (Hnot v)].
    rewrite Hr in Hv. by simplify_eq. }
  split; [| split; [| split]].
  - intros v Hv. destruct (login svc _) as [u| |]; [| done | done].
    destruct (Hres _ _ _ Hv) as [-> ?]. done.
  - intros v Hv. destruct (signupAndAuthorize svc _) as [u| |]; [| done | done].
    destruct (Hres _ _ _ Hv) as [-> ?]. done.
  - intros Hno. destruct (login svc _) as [u| |]; [by destruct (Hno u) | |];
      (split; [done |]; split; [apply calls_since_record_call | done]).
  - intros Hno. destruct (signupAndAuthorize svc _) as [u| |]; [by destruct (Hno u) | |];
      (split; [done |]; split; [apply calls_since_record_call | done]).
Qed.

Lemma password_sign_in_outcome_witness :
  (signin login_failing_services (VStr "a@b.com") (VStr "hunter2") (initial_world None ∅)).1
  = Rejected (ServiceError (VStr "wrong password"))
  /\ calls_since (initial_world None ∅)
       (signin login_failing_services (VStr "a@b.com") (VStr "hunter2")
          (initial_world None ∅)).2
     = [Auth0Login [("username", VStr "a@b.com"); ("password", VStr "hunter2")]].
Proof.
  destruct (password_sign_in_outcome login_failing_services (VStr "a@b.com")
              (VStr "hunter2") (initial_world None ∅)) as (_ & _ & Hin & _).
  destruct (Hin ltac:(intros v; discriminate)) as (Hout & Hcalls & _).
  split; [exact Hout | exact Hcalls].
Defined.

(** X11. The Firebase session is replaced only when both the token
    exchange and the Firebase sign-in resolve, and then by the credential
    obtained with exactly the token that the endpoint returned. When the
    exchange does not resolve, Firebase is not called at all. The state cell
    is never touched. *)
Theorem setFirebaseToken_outcome (svc : Services) (w : World) :
  match (setFirebaseToken svc w).1 with
  | Resolved credential =>
      exists token,
        apiRequest svc "auth-firebase-token" = Resolved token
        /\ signInWithCustomToken svc token = Resolved credential
        /\ firebase_user (setFirebaseToken svc w).2 = Some credential
        /\ calls_since w (setFirebaseToken svc w).2
           = [ApiRequest "auth-firebase-token"; FirebaseSignInWithCustomToken token]
  | _ => firebase_user (setFirebaseToken svc w).2 = firebase_user w
  end
  /\ ((forall token, apiRequest svc "auth-firebase-token" <> Resolved token) ->
      calls_since w (setFirebaseToken svc w).2 = [ApiRequest "auth-firebase-token"])
  /\ user_state (setFirebaseToken svc w).2 = user_state w.
Proof.
  unfold setFirebaseToken. rewrite vendor_then.
  destruct (apiRequest svc _) as [token|e|] eqn:Ht.
  - rewrite vendor_then.
    destruct (signInWithCustomToken svc token) as [c|e|] eqn:Hc; cbn.
    + split; [| split; [intros Hno; by destruct (Hno token) | done]].
      exists token. repeat split; try done.
      apply calls_since_app. cbn. by rewrite <- app_assoc.
    + split; [done |]. split; [intros Hno; by destruct (Hno token) | done].
    + split; [done |]. split; [intros Hno; by destruct (Hno token) | done].
  - cbn. split; [done |]. split; [intros _; by apply calls_since_app | done].
  - cbn. split; [done |]. split; [intros _; by apply calls_since_app | done].
Qed.

Lemma handleAuth_calls_extend (svc : Services) (user : value) (w : World) :
  exists later, calls (handleAuth svc user w).2 = (calls w ++ later)%list.
Proof.
  unfold handleAuth, setFirebaseToken, waitForFirebase, createUser. run_async.
  destruct (apiRequest svc _); cbn; try by eexists.
  destruct (signInWithCustomToken svc _); cbn; try (rewrite <- ?app_assoc; by eexists).
  destruct (get_member user "sub") as [sub|]; cbn; try (rewrite <- ?app_assoc; by eexists).
  destruct (get_member user "email") as [email|]; cbn;
    try (rewrite <- ?app_assoc; by eexists).
  destruct (db_fault svc _); cbn; try (rewrite <- ?app_assoc; by eexists).
  destruct sub as [| | | |id| |]; cbn; try (rewrite <- ?app_assoc; by eexists).
  destruct (users w !! id); cbn; rewrite <- ?app_assoc; by eexists.
Qed.

Lemma base_user_providers (o : object) (nm : string) :
  get_prop (base_user o nm) "providers" = VArr [VStr nm].
Proof. apply get_set_prop_same. Qed.

(** X12. Signing in with one of the five provider names opens the popup
    for the connection that the table gives for that name, with the
    callback of the current domain, before anything else; and an identity
    that comes back with that connection as the prefix of its subject id
    gets, once its record is merged, that same name as its provider tag
    (unless the record itself has a field [providers]). *)
Theorem provider_sign_in_round_trip (svc : Services) (name : string) :
  name ∈ known_provider_names ->
  exists connection run,
    signinWithProvider svc (VStr name) = Ok run
    /\ (forall w, exists later,
          calls (run w).2
          = (calls w ++
             Auth0PopupAuthorize
               [("redirectUri", VStr (window_domain svc ++ "/auth0-callback"));
                ("connection", VStr connection)] :: later)%list)
    /\ (forall getFriendlyPlanId o rest rec err,
          get_prop o "sub" = VStr (connection ++ "|" ++ rest) ->
          NoDup rec.*1 -> has_prop rec "providers" = false ->
          exists finalUser,
            usePrepareUser getFriendlyPlanId (VObj o)
              {| status := "success"; data := VObj rec; error := err |}
            = ([], Ok (VObj finalUser))
            /\ get_prop finalUser "providers" = VArr [VStr name]).
Proof.
  unfold known_provider_names. rewrite !elem_of_cons, elem_of_nil.
  intros Hname.
  assert (exists connection,
            member_of_found Provider.id
              (find_provider (fun p => strict_eq_string (Provider.name p) (VStr name)))
            = Ok connection
            /\ forall rest,
                 known_subject (VStr (connection ++ "|" ++ rest)) = true
                 /\ provider_name_of (prefix_before "|" (connection ++ "|" ++ rest))
                    = Some name) as (connection & Hfound & Hback).
  { destruct Hname as [-> | [-> | [-> | [-> | [-> | []]]]]];
      [exists "auth0" | exists "google-oauth2" | exists "facebook"
       | exists "twitter" | exists "github"]; by split. }
  exists connection. unfold signinWithProvider. rewrite Hfound.
  eexists. split; [reflexivity |]. split.
  - intros w. rewrite vendor_then. fold (window_domain svc).
    destruct (popupAuthorize svc _) as [user| |]; cbn; try (by exists []).
    match goal with
    | |- context [handleAuth svc user ?w1] =>
        destruct (handleAuth_calls_extend svc user w1) as [later ->]
    end.
    exists later. unfold record_call. cbn [snd calls]. by rewrite <- app_assoc.
  - intros gF o rest rec err Hsub Hnd Hnone.
    destruct (Hback rest) as [Hknown Hname'].
    assert (known_subject (get_prop o "sub") = true) as Hk by by rewrite Hsub.
    destruct (prepare_known_name gF o
                {| status := "success"; data := VObj rec; error := err |} Hk)
      as (s & nm & Hs & Hnm & ->).
    rewrite Hsub in Hs. injection Hs as <-. rewrite Hname' in Hnm. injection Hnm as <-.
    rewrite merge_query_record_explicit.
    eexists. split; [reflexivity |].
    rewrite get_set_prop_other by done.
    destruct (truthy _); [rewrite get_set_prop_other by done |];
      unfold object_assign; cbn [own_props];
      rewrite get_prop_assign_props by done; rewrite Hnone; apply base_user_providers.
Qed.

Lemma provider_sign_in_round_trip_witness :
  exists connection run,
    signinWithProvider happy_services (VStr "google") = Ok run
    /\ (forall w, exists later,
          calls (run w).2
          = (calls w ++
             Auth0PopupAuthorize
               [("redirectUri",
                 VStr (window_domain happy_services ++ "/auth0-callback"));
                ("connection", VStr connection)] :: later)%list).
Proof.
  assert ("google" ∈ known_provider_names) as Hin.
  { unfold known_provider_names. rewrite !elem_of_cons. right. by left. }
  destruct (provider_sign_in_round_trip happy_services "google" Hin)
    as (connection & run & Hrun & Hcalls & _).
  exists connection, run. split; [exact Hrun | exact Hcalls].
Defined.

(** X13. A provider name outside the table makes [signinWithProvider]
    throw a [TypeError] out of the call itself: no promise is returned, the
    identity provider is not called, the world is not touched. *)
Theorem unknown_provider_name_throws (svc : Services) (name : value) :
  (forall s, s ∈ known_provider_names -> name <> VStr s) ->
  match signinWithProvider svc name with
  | Ok _ => False
  | Throw e => e = TypeError
  end.
Proof.
  intros Hname. unfold signinWithProvider.
  assert (find_provider (fun p => strict_eq_string (Provider.name p) name) = None) as ->;
    [| done].
  destruct name as [| | | |s| |]; try done.
  unfold find_provider, allProviders. cbn.
  repeat match goal with
         | |- context [?lit =? s] =>
             let E := fresh "E" in
             destruct (lit =? s) eqn:E;
             [apply String.eqb_eq in E; subst s; exfalso;
              eapply Hname; [| reflexivity]; unfold known_provider_names;
              rewrite !elem_of_cons; tauto |]
         end.
  done.
Qed.

Lemma unknown_provider_name_throws_witness :
  match signinWithProvider happy_services (VStr "linkedin") with
  | Ok _ => False
  | Throw e => e = TypeError
  end.
Proof.
  apply (unknown_provider_name_throws happy_services (VStr "linkedin")).
  intros s Hin. unfold known_provider_names in Hin.
  rewrite !elem_of_cons, elem_of_nil in Hin.
  destruct Hin as [-> | [-> | [-> | [-> | [-> | []]]]]]; discriminate.
Defined.

(** ** Change notifications and sign-out *)

(** X14. A change notification that carries a user publishes it only once
    a Firebase session exists: with a session the state cell takes the user;
    without one the listener stays pending for ever and the state cell keeps
    its value. Either way the listener calls neither the identity provider
    nor the store. *)
Theorem notification_waits_for_firebase (user : value) (w : World) :
  truthy user = true ->
  match firebase_user w with
  | Some _ =>
      (onChange_listener user w).1 = Resolved tt
      /\ user_state (onChange_listener user w).2 = user
      /\ calls_since w (onChange_listener user w).2
         = [FirebaseOnAuthStateChanged; SetUser user]
  | None =>
      (onChange_listener user w).1 = Pending
      /\ user_state (onChange_listener user w).2 = user_state w
      /\ calls_since w (onChange_listener user w).2 = [FirebaseOnAuthStateChanged]
  end
  /\ users (onChange_listener user w).2 = users w
  /\ firebase_user (onChange_listener user w).2 = firebase_user w.
Proof.
  intros Htruthy. unfold onChange_listener, waitForFirebase. rewrite Htruthy. run_async.
  destruct (firebase_user w); cbn; repeat split; apply calls_since_app; cbn;
    by rewrite <- ?app_assoc.
Qed.

Lemma notification_waits_for_firebase_witness :
  (onChange_listener (VObj alice) (initial_world None ∅)).1 = Pending
  /\ user_state (onChange_listener (VObj alice) (initial_world None ∅)).2 = VNull.
Proof.
  destruct (notification_waits_for_firebase (VObj alice) (initial_world None ∅) eq_refl)
    as [(Hpending & Hstate & _) _].
  split; [exact Hpending | exact Hstate].
Defined.

(** X15. [signout] ends the Firebase session whatever the identity provider
    answers, returns the provider's answer, and writes neither the state
    cell nor the store. A change notification that still carries a user
    afterwards cannot publish it: it stays pending, and the state cell keeps
    its value. *)
Theorem signout_ends_firebase_session (svc : Services) (user : value) (w : World) :
  truthy user = true ->
  (signout svc w).1 = logout svc
  /\ firebase_user (signout svc w).2 = None
  /\ users (signout svc w).2 = users w
  /\ calls_since w (signout svc w).2 = [FirebaseSignOut; Auth0Logout]
  /\ (onChange_listener user (signout svc w).2).1 = Pending
  /\ user_state (onChange_listener user (signout svc w).2).2 = user_state w.
Proof.
  intros Htruthy. unfold onChange_listener, waitForFirebase, signout. rewrite Htruthy.
  run_async.
  destruct (logout svc); cbn; repeat split; apply calls_since_app; cbn;
    by rewrite <- ?app_assoc.
Qed.

Lemma signout_ends_firebase_session_witness :
  firebase_user (signout happy_services signed_in_world).2 = None
  /\ (onChange_listener (VObj alice) (signout happy_services signed_in_world).2).1 = Pending.
Proof.
  destruct (signout_ends_firebase_session happy_services (VObj alice) signed_in_world
              eq_refl) as (_ & Hfb & _ & _ & Hpending & _).
  split; [exact Hfb | exact Hpending].
Defined.

(** ** Changing the email *)

(** X16. [updateEmail] of a signed-in identity: when the identity provider
    accepts, the state cell takes a copy of the identity in which [email] is
    the new value and every other field is as before; when it does not, the
    state cell keeps its value. The store is never written, so the email of
    the user record is not changed by this operation. *)
Theorem updateEmail_replaces_email_only (svc : Services) (email : value) (o : object)
    (w : World) :
  user_state w = VObj o ->
  match auth0_updateEmail svc email with
  | Resolved _ =>
      exists o',
        (updateEmail svc email w).1 = Resolved tt
        /\ user_state (updateEmail svc email w).2 = VObj o'
        /\ get_prop o' "email" = email
        /\ forall k, k <> "email" -> get_prop o' k = get_prop o k
  | _ =>
      (forall u, (updateEmail svc email w).1 <> Resolved u)
      /\ user_state (updateEmail svc email w).2 = user_state w
  end
  /\ users (updateEmail svc email w).2 = users w
  /\ List.filter is_store_write (calls_since w (updateEmail svc email w).2) = [].
Proof.
  intros Hw. unfold updateEmail. rewrite vendor_then, Hw.
  destruct (auth0_updateEmail svc email); cbn.
  - split.
    + eexists. split; [done |]. split; [reflexivity |].
      split; [apply get_set_prop_same |].
      intros k Hk. by apply get_set_prop_other.
    + split; [done |].
      by rewrite (calls_since_app w _
                    [Auth0UpdateEmail email; SetUser (VObj (set_prop o "email" email))])
        by (cbn; by rewrite <- app_assoc).
  - split; [done |]. split; [done |].
    by rewrite (calls_since_app w _ [Auth0UpdateEmail email]).
  - split; [done |]. split; [done |].
    by rewrite (calls_since_app w _ [Auth0UpdateEmail email]).
Qed.

Lemma updateEmail_replaces_email_only_witness :
  exists o',
    user_state (updateEmail happy_services (VStr "new@b.com") signed_in_world).2 = VObj o'
    /\ get_prop o' "email" = VStr "new@b.com"
    /\ get_prop o' "sub" = VStr "auth0|42".
Proof.
  destruct (updateEmail_replaces_email_only happy_services (VStr "new@b.com") alice
              signed_in_world eq_refl) as [(o' & _ & Hstate & Hemail & Hother) _].
  exists o'. split; [exact Hstate |]. split; [exact Hemail |].
  exact (Hother "sub" ltac:(discriminate)).
Defined.

(** X17. [updateEmail] while the state cell is [null] or [false]: if the
    identity provider accepts, the state cell becomes an object that has
    the email and nothing else, and the next render throws a [TypeError]
    for every query result, since that object has no subject id. *)
Theorem updateEmail_without_identity_breaks_render (svc : Services)
    (getFriendlyPlanId : value -> value) (email r : value) (w : World) (q : query) :
  user_state w = VNull \/ user_state w = VBool false ->
  auth0_updateEmail svc email = Resolved r ->
  user_state (updateEmail svc email w).2 = VObj [("email", email)]
  /\ usePrepareUser getFriendlyPlanId (user_state (updateEmail svc email w).2) q
     = ([], Throw TypeError).
Proof.
  intros Hw Hok. unfold updateEmail. rewrite vendor_then, Hok.
  assert (own_props (user_state w) = []) as -> by (by destruct Hw as [-> | ->]).
  cbn. by split.
Qed.

Lemma updateEmail_without_identity_breaks_render_witness :
  usePrepareUser sample_plans
    (user_state (updateEmail happy_services (VStr "a@b.com") (initial_world None ∅)).2)
    (query_of "idle" VUndef)
  = ([], Throw TypeError).
Proof.
  exact (proj2 (updateEmail_without_identity_breaks_render happy_services sample_plans
                  (VStr "a@b.com") VUndef (initial_world None ∅) (query_of "idle" VUndef)
                  (or_introl eq_refl) eq_refl)).
Defined.

(** ** Updating the profile *)

Lemma updateProfile_identity_part (svc : Services) (d : object) (w : World) :
  (forall e, exists r, auth0_updateEmail svc e = Resolved r) ->
  (forall f, exists r, auth0_updateProfile svc f = Resolved r) ->
  exists w1,
    calls w1 = (calls w ++ identity_writes d)%list
    /\ user_state w1 = user_state w /\ users w1 = users w
    /\ firebase_user w1 = firebase_user w
    /\ updateProfile svc (VObj d) w
       = (and_then (eval (get_member (user_state w) "sub")) (fun sub =>
          and_then (updateUser svc sub (VObj d)) (fun _ =>
          and_then (vendor Auth0GetCurrentUser (getCurrentUser svc)) setUser))) w1.
Proof.
  intros Hemail Hprofile. unfold updateProfile, identity_writes, profile_fields.
  cbn [get_member eval]. unfold and_then at 1 2 3. cbn [resolve].
  destruct (truthy (get_prop d "email")) eqn:He;
    destruct (truthy (get_prop d "name")) eqn:Hn;
    destruct (truthy (get_prop d "picture")) eqn:Hp; cbn [orb];
    try (destruct (Hemail (get_prop d "email")) as [r1 Hr1]);
    try (destruct (Hprofile [("name", get_prop d "name"); ("picture", get_prop d "picture")])
           as [r2 Hr2]);
    try (destruct (Hprofile [("name", get_prop d "name")]) as [r3 Hr3]);
    try (destruct (Hprofile [("picture", get_prop d "picture")]) as [r4 Hr4]);
    unfold and_then at 1 2 3 4, vendor, and_then, record_call, resolve; cbn;
    rewrite ?Hr1, ?Hr2, ?Hr3, ?Hr4; cbn;
    eexists; (split; [| split; [| split; [| split; [| reflexivity]]]]); cbn;
    rewrite <- ?app_assoc, ?app_nil_r; done.
Qed.

(** X18. With an identity signed in and every awaited call succeeding,
    [updateProfile] writes to the identity provider only what is truthy
    among [email], [name] and [picture] (the email on its own, name and
    picture together in one profile write, nothing when all three are
    falsy), then persists the whole data to the store, identity fields
    included, then re-reads the identity and publishes what it read (not the
    data). *)
Theorem updateProfile_partitions_fields (svc : Services) (d o : object) (id : string)
    (cu : value) (w : World) :
  user_state w = VObj o ->
  get_prop o "sub" = VStr id ->
  (forall e, exists r, auth0_updateEmail svc e = Resolved r) ->
  (forall f, exists r, auth0_updateProfile svc f = Resolved r) ->
  db_fault svc (DbUpdateUser (VStr id) (VObj d)) = None ->
  getCurrentUser svc = Resolved cu ->
  (updateProfile svc (VObj d) w).1 = Resolved tt
  /\ calls_since w (updateProfile svc (VObj d) w).2
     = (identity_writes d ++
        [DbUpdateUser (VStr id) (VObj d); Auth0GetCurrentUser; SetUser cu])%list
  /\ user_state (updateProfile svc (VObj d) w).2 = cu.
Proof.
  intros Hw Hsub Hemail Hprofile Hdb Hcu.
  destruct (updateProfile_identity_part svc d w Hemail Hprofile)
    as (w1 & Hcalls & Hstate & Husers & _ & ->).
  rewrite Hw. cbn [get_member eval]. rewrite Hsub.
  unfold updateUser. run_async. rewrite Hdb, Hcu. cbn.
  split; [done |]. split; [| done].
  apply calls_since_app. cbn. rewrite Hcalls. by rewrite <- !app_assoc.
Qed.

Lemma updateProfile_partitions_fields_witness :
  calls_since signed_in_world (updateProfile happy_services (VObj full_profile)
                                 signed_in_world).2
  = [ Auth0UpdateEmail (VStr "new@b.com");
      Auth0UpdateProfile [("name", VStr "Alice B.")];
      DbUpdateUser (VStr "auth0|42") (VObj full_profile);
      Auth0GetCurrentUser; SetUser (VObj alice) ].
Proof.
  exact (proj1 (proj2 (updateProfile_partitions_fields happy_services full_profile alice
                         "auth0|42" (VObj alice) signed_in_world eq_refl eq_refl
                         (fun _ => ex_intro _ VUndef eq_refl)
                         (fun _ => ex_intro _ VUndef eq_refl) eq_refl eq_refl))).
Defined.

(** X19. No rollback: when the identity writes of [updateProfile] succeed
    and the store then refuses the data, the call rejects with the error of
    the store, the writes to the identity provider have been made and stay
    made, the identity is not re-read, and the state cell keeps its
    value. *)
Theorem updateProfile_store_failure_leaves_state (svc : Services) (d o : object)
    (id : string) (e : exn) (w : World) :
  user_state w = VObj o ->
  get_prop o "sub" = VStr id ->
  (forall x, exists r, auth0_updateEmail svc x = Resolved r) ->
  (forall f, exists r, auth0_updateProfile svc f = Resolved r) ->
  db_fault svc (DbUpdateUser (VStr id) (VObj d)) = Some e ->
  (updateProfile svc (VObj d) w).1 = Rejected e
  /\ calls_since w (updateProfile svc (VObj d) w).2
     = (identity_writes d ++ [DbUpdateUser (VStr id) (VObj d)])%list
  /\ user_state (updateProfile svc (VObj d) w).2 = user_state w.
Proof.
  intros Hw Hsub Hemail Hprofile Hdb.
  destruct (updateProfile_identity_part svc d w Hemail Hprofile)
    as (w1 & Hcalls & Hstate & Husers & _ & ->).
  rewrite Hw. cbn [get_member eval]. rewrite Hsub.
  unfold updateUser. run_async. rewrite Hdb. cbn.
  split; [done |]. split; [| by rewrite Hstate, Hw].
  apply calls_since_app. cbn. rewrite Hcalls. by rewrite <- !app_assoc.
Qed.

Lemma updateProfile_store_failure_leaves_state_witness :
  (updateProfile store_failing_services (VObj full_profile) signed_in_world).1
  = Rejected (ServiceError (VStr "permission denied"))
  /\ calls_since signed_in_world
       (updateProfile store_failing_services (VObj full_profile) signed_in_world).2
     = [ Auth0UpdateEmail (VStr "new@b.com");
         Auth0UpdateProfile [("name", VStr "Alice B.")];
         DbUpdateUser (VStr "auth0|42") (VObj full_profile) ].
Proof.
  destruct (updateProfile_store_failure_leaves_state store_failing_services full_profile
              alice "auth0|42" (ServiceError (VStr "permission denied")) signed_in_world
              eq_refl eq_refl
              (fun _ => ex_intro _ VUndef eq_refl)
              (fun _ => ex_intro _ VUndef eq_refl) eq_refl)
    as (Hout & Hcalls & _).
  split; [exact Hout | exact Hcalls].
Defined.

(** [updateProfile] with [null] or [undefined] in place of the data
    rejects with a [TypeError] before it does anything: no call is made and
    the world is as it was. *)
Lemma updateProfile_without_data (svc : Services) (data : value) (w : World) :
  data = VNull \/ data = VUndef ->
  updateProfile svc data w = (Rejected TypeError, w).
Proof. by intros [-> | ->]. Qed.

Lemma updateProfile_without_data_witness :
  updateProfile happy_services VUndef signed_in_world = (Rejected TypeError, signed_in_world).
Proof.
  exact (updateProfile_without_data happy_services VUndef signed_in_world
           (or_intror eq_refl)).
Defined.

(** ** More on the token exchange endpoint *)

(** When [createCustomToken] returns a promise, the two handlers agree. *)
Lemma auth_firebase_token_call_promise (createCustomToken : value -> outcome value)
    (req_user : value) :
  auth_firebase_token_call (fun uid => Ok (createCustomToken uid)) req_user
  = auth_firebase_token createCustomToken req_user.
Proof.
  unfold auth_firebase_token_call, auth_firebase_token.
  by destruct (get_member req_user "uid").
Qed.

(** X20. Every way a request to the endpoint can end. The handler throws in
    two cases only, and then sends and logs nothing: a request without a
    user throws a [TypeError] before [createCustomToken] is called, and a
    [createCustomToken] that throws out of the call itself (asked for the
    [uid] of the user) has its exception leave the handler, past the
    [catch] of the promise chain. Otherwise [createCustomToken] has returned
    a promise: while it is pending nothing is sent; when it resolves the
    body has the status ["success"] and carries the token, and nothing is
    logged; when it rejects the body is the fixed error body and the
    upstream error is logged once. *)
Theorem token_endpoint_outcomes (createCustomToken : value -> result (outcome value))
    (req_user : value) :
  match auth_firebase_token_call createCustomToken req_user with
  | Throw e =>
      (e = TypeError /\ (req_user = VUndef \/ req_user = VNull))
      \/ (exists uid, get_member req_user "uid" = Ok uid
                      /\ createCustomToken uid = Throw e)
  | Ok x =>
      exists uid,
        get_member req_user "uid" = Ok uid
        /\ match createCustomToken uid with
           | Throw _ => False
           | Ok (Resolved token) =>
               sent x = Some (VObj [("status", VStr "success"); ("data", token)])
               /\ logged x = []
           | Ok (Rejected e) =>
               sent x = Some generic_error_response
               /\ logged x = [("auth-firebase-token error", e)]
           | Ok Pending => sent x = None /\ logged x = []
           end
  end.
Proof.
  unfold auth_firebase_token_call, auth_firebase_token.
  destruct req_user as [| | b | n | s | items | o]; cbn;
    try (left; split; [done |]; by (left + right));
    (destruct (createCustomToken _) as [[token|e|]|e] eqn:Hmint;
     [eexists; split; [reflexivity |]; by rewrite Hmint
     | eexists; split; [reflexivity |]; by rewrite Hmint
     | eexists; split; [reflexivity |]; by rewrite Hmint
     | right; by eexists]).
Qed.
